(** * Products API handler (AWS Lambda, API Gateway proxy integration)

    A shallow embedding of the two Lambda handlers of the repository:

    - [Plain]      : [src/products/app.ts], logging through [console];
    - [Powertools] : the same handler instrumented with the AWS Lambda
                     Powertools logger, metrics and tracer and wrapped by
                     middy ([common/powertools.ts] and the second [app.ts]).

    The handlers are written in a state-and-exception monad over a [World]
    that holds the DynamoDB table, the entropy behind [uuidv4], the list of
    calls issued to the DocumentClient and the telemetry side channel.

    What the handlers use but the repository does not define is taken as an
    interface: the global [JSON] object ([JSONGlobal]), the DynamoDB
    DocumentClient ([DocumentClient]), [uuidv4] ([UuidGen]) and the process
    environment ([ProcessEnv]).  Module [Ref] gives executable instances of
    these interfaces, on which the handlers run on concrete requests. *)

From Stdlib Require Import ZArith NArith String Ascii List DecimalString.
From Stdlib Require Import Floats.SpecFloat.
From stdpp Require Import base option list strings gmap.

Local Open Scope string_scope.
Local Open Scope Z_scope.

(** ** JavaScript values *)

(** A JavaScript value as far as the handlers see one: what [JSON.parse]
    returns, what is handed to [JSON.stringify] and to the DocumentClient.
    A Number is an IEEE-754 binary64 datum.  An object is its list of own
    enumerable properties, in insertion order. *)
#[warnings="-register-all"]
Inductive JSValue : Type :=
| JUndefined
| JNull
| JBool (b : bool)
| JNumber (x : spec_float)
| JString (s : string)
| JArray (elems : list JSValue)
| JObject (props : list (string * JSValue)).

(** An [Error] instance; the handlers read nothing but [err.message]. *)
Record JSError : Type := MkError { err_name : string; message : string }.

(** The result of evaluating something that may throw. *)
Inductive Completion (A : Type) : Type :=
| Normal (a : A)
| Throw (e : JSError).
Arguments Normal {A} a.
Arguments Throw {A} e.

(** [ToBoolean], ECMA-262 7.1.2. *)
Definition ToBoolean (v : JSValue) : bool :=
  match v with
  | JUndefined | JNull => false
  | JBool b => b
  | JNumber (S754_zero _) | JNumber S754_nan => false
  | JNumber _ => true
  | JString s => negb (String.eqb s EmptyString)
  | JArray _ | JObject _ => true
  end.

(** [a || b] on values. *)
Definition js_or (a b : JSValue) : JSValue := if ToBoolean a then a else b.

(** [a === b].  Two objects (or arrays) are equal only when they are the
    same reference; the handlers compare a freshly parsed value with a path
    parameter, which is a string or [undefined], so an object operand is
    never the same reference as the other operand. *)
Definition strict_eq (a b : JSValue) : bool :=
  match a, b with
  | JUndefined, JUndefined => true
  | JNull, JNull => true
  | JBool x, JBool y => Bool.eqb x y
  | JNumber x, JNumber y => SFeqb x y
  | JString x, JString y => String.eqb x y
  | _, _ => false
  end.

(** Own-property lookup in a property list. *)
Fixpoint lookup_prop {A : Type} (k : string) (props : list (string * A)) : option A :=
  match props with
  | [] => None
  | (k', v) :: rest => if String.eqb k k' then Some v else lookup_prop k rest
  end.

(** [v.key] for the property names the handlers read ([id], [name],
    [price]), none of which is defined on a built-in prototype: the own
    property of an object, [undefined] on a primitive or an array, and a
    [TypeError] on [null] and [undefined]. *)
Definition GetV (v : JSValue) (key : string) : Completion JSValue :=
  match v with
  | JUndefined =>
      Throw (MkError "TypeError"
               ("Cannot read properties of undefined (reading '" +:+ key +:+ "')"))
  | JNull =>
      Throw (MkError "TypeError"
               ("Cannot read properties of null (reading '" +:+ key +:+ "')"))
  | JObject props => Normal (default JUndefined (lookup_prop key props))
  | _ => Normal JUndefined
  end.

(** ** The Lambda event and result (the fields the handlers touch) *)

Record APIGatewayProxyEvent : Type := MkEvent {
  httpMethod : string;
  (** [{ [name: string]: string } | null] *)
  pathParameters : option (list (string * string));
  (** [string | null] *)
  body : option string;
}.

Record APIGatewayProxyResult : Type := MkResult {
  statusCode : Z;
  result_body : string;
  (** [undefined] until [addResponseHeaders] assigns the property *)
  headers : option (list (string * string));
}.

(** [input.pathParameters?.id] : a string or [undefined]. *)
Definition pathParameters_id (input : APIGatewayProxyEvent) : option string :=
  match pathParameters input with
  | None => None
  | Some params => lookup_prop "id" params
  end.

(** The path id as a value, for [===] and for the DocumentClient. *)
Definition js_of_id (id : option string) : JSValue :=
  match id with
  | Some s => JString s
  | None => JUndefined
  end.

(** [`${id}`] for a string or [undefined]. *)
Definition template_id (id : option string) : string :=
  match id with
  | Some s => s
  | None => "undefined"
  end.

(** [input.body || ''] : [null] and the empty string both give [''].  *)
Definition body_or_empty (input : APIGatewayProxyEvent) : string :=
  match body input with
  | Some s => if String.eqb s EmptyString then EmptyString else s
  | None => EmptyString
  end.

(** [`${items}`] for an array of objects: [Array.prototype.toString] joins
    the elements' string conversions with commas. *)
Definition template_items {A : Type} (items : list A) : string :=
  String.concat "," (map (fun _ => "[object Object]") items).

(** ** Interfaces of the collaborators *)

(** The global [JSON] object.  [JSON_parse] throws a [SyntaxError] on text
    that is not JSON.  [JSON_stringify] is applied by the handlers to
    objects and arrays only, on which it returns a string. *)
Class JSONGlobal : Type := {
  JSON_parse : string -> Completion JSValue;
  JSON_stringify : JSValue -> string;
}.

(** An item of the table: attribute names and their values. *)
Definition AttributeMap : Type := list (string * JSValue).

Record GetItemInput : Type := MkGetItemInput {
  get_TableName : string;
  get_Key : AttributeMap;
}.

Record PutItemInput : Type := MkPutItemInput {
  put_TableName : string;
  put_Item : AttributeMap;
}.

Record DeleteItemInput : Type := MkDeleteItemInput {
  delete_TableName : string;
  delete_Key : AttributeMap;
}.

Record ScanInput : Type := MkScanInput {
  scan_TableName : string;
  scan_Limit : Z;
}.

(** [GetItemOutput]: [Item] is absent when no record has the key. *)
Record GetItemOutput : Type := MkGetItemOutput { Item : option AttributeMap }.

(** [ScanOutput]: the page of records read. *)
Record ScanOutput : Type := MkScanOutput { Items : list AttributeMap }.

(** [DynamoDB.DocumentClient], each call followed by [.promise()] and
    awaited.  [Table] is the state of the store; reads leave it as it is,
    writes return the new state; every call may throw. *)
Class DocumentClient : Type := {
  Table : Type;
  db_get : GetItemInput -> Table -> Completion GetItemOutput;
  db_put : PutItemInput -> Table -> Completion unit * Table;
  db_delete : DeleteItemInput -> Table -> Completion unit * Table;
  db_scan : ScanInput -> Table -> Completion ScanOutput;
}.

(** [uuidv4] of the [uuid] package, drawing on a source of randomness. *)
Class UuidGen : Type := {
  Entropy : Type;
  uuidv4 : Entropy -> string * Entropy;
}.

(** [process.env]. *)
Class ProcessEnv : Type := {
  PRODUCT_TABLE_NAME : option string;
  AWS_ACCOUNT_ID : option string;
  ENVIRONMENT : option string;
  AWS_REGION : option string;
  AWS_EXECUTION_ENV : option string;
}.

(** [process.env.X || fallback] : an unset or empty variable gives the
    fallback. *)
Definition env_or (x : option string) (fallback : string) : string :=
  match x with
  | Some s => if String.eqb s EmptyString then fallback else s
  | None => fallback
  end.

(** ** The world and the monad of the handlers *)

(** A call issued to the DocumentClient. *)
Inductive StoreCall : Type :=
| CallGet (params : GetItemInput)
| CallPut (params : PutItemInput)
| CallDelete (params : DeleteItemInput)
| CallScan (params : ScanInput).

(** A record written to the observability side channel. *)
Inductive Telemetry : Type :=
| ConsoleInfo (msg : string)
| ConsoleInfoEvent (msg : string) (event : APIGatewayProxyEvent)
| ConsoleLog (msg : string)
| ConsoleError (msg : string)
| LoggerInfo (service : string) (msg : string)
| LoggerError (service : string) (msg : string)
| MetricAdded (service : string) (name metric_unit : string) (value : nat)
| TracedCall (service : string) (call : StoreCall)
| MiddlewareBefore (name : string) (event : APIGatewayProxyEvent)
| MiddlewareAfter (name : string) (response : APIGatewayProxyResult).

Section Monad.
Context `{DocumentClient} `{UuidGen}.

Record World : Type := MkWorld {
  table : Table;
  entropy : Entropy;
  calls : list StoreCall;
  telemetry : list Telemetry;
}.

Definition M (A : Type) : Type := World -> Completion A * World.

Definition ret {A : Type} (a : A) : M A := fun w => (Normal a, w).

Definition bind {A B : Type} (m : M A) (k : A -> M B) : M B :=
  fun w =>
    match m w with
    | (Normal a, w') => k a w'
    | (Throw e, w') => (Throw e, w')
    end.

(** [throw Error(msg)] *)
Definition throw {A : Type} (e : JSError) : M A := fun w => (Throw e, w).

(** [try { body } catch (err) { handler }] *)
Definition try_catch {A : Type} (body : M A) (handler : JSError -> M A) : M A :=
  fun w =>
    match body w with
    | (Normal a, w') => (Normal a, w')
    | (Throw e, w') => handler e w'
    end.

(** A pure computation that may throw. *)
Definition lift {A : Type} (c : Completion A) : M A := fun w => (c, w).

Definition emit (t : Telemetry) : M unit :=
  fun w => (Normal tt,
            MkWorld (table w) (entropy w) (calls w) (telemetry w ++ [t])).

Definition record_call (c : StoreCall) (w : World) : World :=
  MkWorld (table w) (entropy w) (calls w ++ [c]) (telemetry w).

Definition set_table (t : Table) (w : World) : World :=
  MkWorld t (entropy w) (calls w) (telemetry w).

(** [await dbClient.get(params).promise()] *)
Definition dbClient_get (params : GetItemInput) : M GetItemOutput :=
  fun w => (db_get params (table w), record_call (CallGet params) w).

(** [await dbClient.put(params).promise()] *)
Definition dbClient_put (params : PutItemInput) : M unit :=
  fun w =>
    let '(c, t') := db_put params (table w) in
    (c, set_table t' (record_call (CallPut params) w)).

(** [await dbClient.delete(params).promise()] *)
Definition dbClient_delete (params : DeleteItemInput) : M unit :=
  fun w =>
    let '(c, t') := db_delete params (table w) in
    (c, set_table t' (record_call (CallDelete params) w)).

(** [await dbClient.scan(params).promise()] *)
Definition dbClient_scan (params : ScanInput) : M ScanOutput :=
  fun w => (db_scan params (table w), record_call (CallScan params) w).

(** [uuidv4()] *)
Definition fresh_uuid : M string :=
  fun w =>
    let '(u, g) := uuidv4 (entropy w) in
    (Normal u, MkWorld (table w) g (calls w) (telemetry w)).
End Monad.

Declare Scope js_scope.
Delimit Scope js_scope with js.
Notation "'let*' x ':=' m 'in' k" := (bind m (fun x => k))
  (at level 10, x name, m at level 100, k at level 200) : js_scope.
Notation "m ';;' k" := (bind m (fun _ => k))
  (at level 100, k at level 200, right associativity) : js_scope.

(** ** The handler of [src/products/app.ts] *)

Module Plain.
Section Handlers.
Context `{JSONGlobal} `{DocumentClient} `{UuidGen} `{ProcessEnv}.
Local Open Scope js_scope.

(** [process.env.PRODUCT_TABLE_NAME || ''] *)
Definition dynamoDBTableName : string := env_or PRODUCT_TABLE_NAME EmptyString.

Definition console_info (msg : string) : M unit := emit (ConsoleInfo msg).
Definition console_log (msg : string) : M unit := emit (ConsoleLog msg).
Definition console_error (msg : string) : M unit := emit (ConsoleError msg).

(** The [catch] block shared in shape by the five handlers: log the
    message and answer 500 with it. *)
Definition internal_error (operation : string) (err : JSError)
  : M APIGatewayProxyResult :=
  let errorMessage :=
    "Internal Server Error for " +:+ operation +:+ " :: " +:+ message err in
  console_error errorMessage ;;
  ret {| statusCode := 500;
         result_body := JSON_stringify (JObject [("error", JString errorMessage)]);
         headers := None |}.

(** The [try] block of [processPutEvent]. *)
Definition putEvent_try (input : APIGatewayProxyEvent) : M APIGatewayProxyResult :=
  let id := pathParameters_id input in
  let* parsed := lift (JSON_parse (body_or_empty input)) in
  let product := js_or parsed (JObject []) in
  let* product_id := lift (GetV product "id") in
  if negb (strict_eq product_id (js_of_id id)) then
    ret {| statusCode := 400;
           result_body :=
             JSON_stringify
               (JObject [("error",
                          JString "Product ID in the body does not match path parameter")]);
           headers := None |}
  else
    let* product_name := lift (GetV product "name") in
    let* product_price := lift (GetV product "price") in
    let params :=
      {| put_TableName := dynamoDBTableName;
         put_Item := [("PK", product_id);
                      ("name", product_name);
                      ("price", product_price)] |} in
    dbClient_put params ;;
    let successMessage := "Product with id = " +:+ template_id id +:+ " edited(created)" in
    console_log successMessage ;;
    ret {| statusCode := 201;
           result_body := JSON_stringify (JObject [("message", JString successMessage)]);
           headers := None |}.

Definition processPutEvent (input : APIGatewayProxyEvent) : M APIGatewayProxyResult :=
  console_info "Processing Put Event" ;;
  try_catch (putEvent_try input) (internal_error "Put").

(** The [try] block of [processPostEvent]. *)
Definition postEvent_try (input : APIGatewayProxyEvent) : M APIGatewayProxyResult :=
  let* parsed := lift (JSON_parse (body_or_empty input)) in
  let product := js_or parsed (JObject []) in
  let* productId := fresh_uuid in
  let* product_name := lift (GetV product "name") in
  let* product_price := lift (GetV product "price") in
  let params :=
    {| put_TableName := dynamoDBTableName;
       put_Item := [("PK", JString productId);
                    ("name", product_name);
                    ("price", product_price)] |} in
  dbClient_put params ;;
  let successMessage := "Product with id = " +:+ productId +:+ " created" in
  console_log successMessage ;;
  ret {| statusCode := 201;
         result_body := JSON_stringify (JObject [("message", JString successMessage)]);
         headers := None |}.

Definition processPostEvent (input : APIGatewayProxyEvent) : M APIGatewayProxyResult :=
  console_info "Processing Post Event" ;;
  try_catch (postEvent_try input) (internal_error "Post").

(** The [try] block of [processGetAllEvent]. *)
Definition getAllEvent_try : M APIGatewayProxyResult :=
  let params := {| scan_TableName := dynamoDBTableName; scan_Limit := 20 |} in
  let* products := dbClient_scan params in
  let successMessage :=
    "Successfully retrieved all products: " +:+ template_items (Items products) in
  console_log successMessage ;;
  ret {| statusCode := 200;
         result_body := JSON_stringify (JArray (map JObject (Items products)));
         headers := None |}.

Definition processGetAllEvent : M APIGatewayProxyResult :=
  console_info "Processing Get All Event" ;;
  try_catch getAllEvent_try (internal_error "GetAll").

(** The [try] block of [processGetByIdEvent]. *)
Definition getByIdEvent_try (input : APIGatewayProxyEvent) : M APIGatewayProxyResult :=
  let id := pathParameters_id input in
  (if strict_eq (js_of_id id) (JString "ForceError")
   then throw (MkError "Error" "BOOM")
   else ret tt) ;;
  let params :=
    {| get_TableName := dynamoDBTableName; get_Key := [("PK", js_of_id id)] |} in
  let* product := dbClient_get params in
  match Item product with
  | Some item =>
      let successMessage := "Product with id = " +:+ template_id id +:+ " found" in
      console_log successMessage ;;
      ret {| statusCode := 200;
             result_body := JSON_stringify (JObject item);
             headers := None |}
  | None =>
      let notFoundMessage := "Product with id = " +:+ template_id id +:+ " NOT found" in
      console_log notFoundMessage ;;
      ret {| statusCode := 404;
             result_body := JSON_stringify (JObject [("error", JString notFoundMessage)]);
             headers := None |}
  end.

Definition processGetByIdEvent (input : APIGatewayProxyEvent) : M APIGatewayProxyResult :=
  console_info "Processing Get By Id Event" ;;
  try_catch (getByIdEvent_try input) (internal_error "GetById").

(** The [try] block of [processDeleteEvent]. *)
Definition deleteEvent_try (input : APIGatewayProxyEvent) : M APIGatewayProxyResult :=
  let id := pathParameters_id input in
  let getParams :=
    {| get_TableName := dynamoDBTableName; get_Key := [("PK", js_of_id id)] |} in
  let* product := dbClient_get getParams in
  match Item product with
  | Some _ =>
      let deleteParams :=
        {| delete_TableName := dynamoDBTableName;
           delete_Key := [("PK", js_of_id id)] |} in
      dbClient_delete deleteParams ;;
      let successMessage := "Product with id = " +:+ template_id id +:+ " was deleted" in
      console_log successMessage ;;
      ret {| statusCode := 200;
             result_body := JSON_stringify (JObject [("message", JString successMessage)]);
             headers := None |}
  | None =>
      let notFoundMessage := "Product with id = " +:+ template_id id +:+ " was deleted" in
      console_log notFoundMessage ;;
      ret {| statusCode := 404;
             result_body := JSON_stringify (JObject [("error", JString notFoundMessage)]);
             headers := None |}
  end.

Definition processDeleteEvent (input : APIGatewayProxyEvent) : M APIGatewayProxyResult :=
  console_info "Processing Delete Event" ;;
  try_catch (deleteEvent_try input) (internal_error "Delete").

(** The two headers every response leaves with. *)
Definition response_headers : list (string * string) :=
  [("Content-Type", "application/json"); ("X-Custom-Header", "application/json")].

(** [response.headers = {...}; return response] *)
Definition addResponseHeaders (response : APIGatewayProxyResult)
  : M APIGatewayProxyResult :=
  console_info "Adding Response Headers" ;;
  ret {| statusCode := statusCode response;
         result_body := result_body response;
         headers := Some response_headers |}.

Definition handler (event : APIGatewayProxyEvent) : M APIGatewayProxyResult :=
  emit (ConsoleInfoEvent "Lambda Invocation Event :: " event) ;;
  if String.eqb (httpMethod event) "PUT" then
    let* r := processPutEvent event in addResponseHeaders r
  else if String.eqb (httpMethod event) "POST" then
    let* r := processPostEvent event in addResponseHeaders r
  else if String.eqb (httpMethod event) "GET" then
    match pathParameters event with
    | None => let* r := processGetAllEvent in addResponseHeaders r
    | Some _ => let* r := processGetByIdEvent event in addResponseHeaders r
    end
  else if String.eqb (httpMethod event) "DELETE" then
    let* r := processDeleteEvent event in addResponseHeaders r
  else
    let response :=
      {| statusCode := 500;
         result_body :=
           JSON_stringify (JObject [("message", JString "some error happened")]);
         headers := None |} in
    console_error "Error happened while processing the request" ;;
    addResponseHeaders response.
End Handlers.
End Plain.

(** ** The instrumented handler ([common/powertools.ts] and its [app.ts]) *)

(** The Powertools utilities and middy are libraries outside the repository.
    Their calls are modelled as writes to the telemetry side channel that
    return normally, and a middleware's [after] hook reads the response
    without replacing it (the logger, metrics and tracer middlewares of
    Powertools 1.11.1 do not assign [request.response]). *)

Module Powertools.
Section Handlers.
Context `{JSONGlobal} `{DocumentClient} `{UuidGen} `{ProcessEnv}.
Local Open Scope js_scope.

(** *** [common/powertools.ts] *)

Definition awsLambdaPowertoolsVersion : string := "1.11.1".
Definition serviceName : string := "productsService".

Definition defaultValues : list (string * string) :=
  [("awsAccountId", env_or AWS_ACCOUNT_ID "N/A");
   ("environment", env_or ENVIRONMENT "N/A")].

Record Logger : Type := MkLogger {
  logger_serviceName : string;
  persistentLogAttributes : list (string * JSValue);
}.

Record Metrics : Type := MkMetrics {
  metrics_serviceName : string;
  defaultDimensions : list (string * string);
}.

Record Tracer : Type := MkTracer { tracer_serviceName : string }.

Definition logger : Logger :=
  {| logger_serviceName := serviceName;
     persistentLogAttributes :=
       map (fun kv => (fst kv, JString (snd kv))) defaultValues
       ++ [("logger",
            JObject [("name", JString "@aws-lambda-powertools/logger");
                     ("version", JString awsLambdaPowertoolsVersion)])] |}.

Definition metrics : Metrics :=
  {| metrics_serviceName := serviceName;
     defaultDimensions :=
       defaultValues
       ++ [("commitHash", "abcdefg12");
           ("appName", "products-app");
           ("awsRegion", env_or AWS_REGION "N/A");
           ("appVersion", "v0.0.1");
           ("runtime", env_or AWS_EXECUTION_ENV "N/A")] |}.

Definition tracer : Tracer := {| tracer_serviceName := serviceName |}.

(** *** The library calls *)

Definition logger_info (msg : string) : M unit :=
  emit (LoggerInfo (logger_serviceName logger) msg).
Definition logger_error (msg : string) : M unit :=
  emit (LoggerError (logger_serviceName logger) msg).

(** [metrics.addMetric(name, unit, value)] *)
Definition metrics_addMetric (name metric_unit : string) (value : nat) : M unit :=
  emit (MetricAdded (metrics_serviceName metrics) name metric_unit value).

(** Calls of the client returned by [tracer.captureAWSClient]: the call of
    the wrapped client, traced. *)
Definition traced {A : Type} (c : StoreCall) (call : M A) : M A :=
  emit (TracedCall (tracer_serviceName tracer) c) ;; call.

Definition dbClient_get (params : GetItemInput) : M GetItemOutput :=
  traced (CallGet params) (dbClient_get params).
Definition dbClient_put (params : PutItemInput) : M unit :=
  traced (CallPut params) (dbClient_put params).
Definition dbClient_delete (params : DeleteItemInput) : M unit :=
  traced (CallDelete params) (dbClient_delete params).
Definition dbClient_scan (params : ScanInput) : M ScanOutput :=
  traced (CallScan params) (dbClient_scan params).

(** A middy middleware: a hook before the handler and one after it. *)
Record MiddlewareObj : Type := MkMiddleware {
  before : APIGatewayProxyEvent -> M unit;
  after : APIGatewayProxyResult -> M unit;
}.

Definition telemetry_middleware (name : string) : MiddlewareObj :=
  {| before := fun event => emit (MiddlewareBefore name event);
     after := fun response => emit (MiddlewareAfter name response) |}.

Definition injectLambdaContext (l : Logger) : MiddlewareObj :=
  telemetry_middleware ("injectLambdaContext:" +:+ logger_serviceName l).
Definition logMetrics (m : Metrics) : MiddlewareObj :=
  telemetry_middleware ("logMetrics:" +:+ metrics_serviceName m).
Definition captureLambdaHandler (t : Tracer) : MiddlewareObj :=
  telemetry_middleware ("captureLambdaHandler:" +:+ tracer_serviceName t).

Fixpoint run_hooks {A : Type} (hooks : list (A -> M unit)) (a : A) : M unit :=
  match hooks with
  | [] => ret tt
  | h :: rest => h a ;; run_hooks rest a
  end.

(** [middy(base).use(m1).use(m2)...] : the [before] hooks in the order of
    [use], the base handler, the [after] hooks in the reverse order. *)
Definition middy (base : APIGatewayProxyEvent -> M APIGatewayProxyResult)
    (middlewares : list MiddlewareObj)
  : APIGatewayProxyEvent -> M APIGatewayProxyResult :=
  fun event =>
    run_hooks (map before middlewares) event ;;
    let* response := base event in
    run_hooks (rev (map after middlewares)) response ;;
    ret response.

(** *** [app.ts] *)

Definition dynamoDBTableName : string := env_or PRODUCT_TABLE_NAME EmptyString.

Definition internal_error (operation : string) (err : JSError)
  : M APIGatewayProxyResult :=
  let errorMessage :=
    "Internal Server Error for " +:+ operation +:+ " :: " +:+ message err in
  logger_error errorMessage ;;
  ret {| statusCode := 500;
         result_body := JSON_stringify (JObject [("error", JString errorMessage)]);
         headers := None |}.

Definition putEvent_try (input : APIGatewayProxyEvent) : M APIGatewayProxyResult :=
  let id := pathParameters_id input in
  let* parsed := lift (JSON_parse (body_or_empty input)) in
  let product := js_or parsed (JObject []) in
  let* product_id := lift (GetV product "id") in
  if negb (strict_eq product_id (js_of_id id)) then
    ret {| statusCode := 400;
           result_body :=
             JSON_stringify
               (JObject [("error",
                          JString "Product ID in the body does not match path parameter")]);
           headers := None |}
  else
    let* product_name := lift (GetV product "name") in
    let* product_price := lift (GetV product "price") in
    let params :=
      {| put_TableName := dynamoDBTableName;
         put_Item := [("PK", product_id);
                      ("name", product_name);
                      ("price", product_price)] |} in
    dbClient_put params ;;
    let successMessage := "Product with id = " +:+ template_id id +:+ " edited(created)" in
    logger_info successMessage ;;
    ret {| statusCode := 201;
           result_body := JSON_stringify (JObject [("message", JString successMessage)]);
           headers := None |}.

Definition processPutEvent (input : APIGatewayProxyEvent) : M APIGatewayProxyResult :=
  logger_info "Processing Put Event" ;;
  try_catch (putEvent_try input) (internal_error "Put").

Definition postEvent_try (input : APIGatewayProxyEvent) : M APIGatewayProxyResult :=
  let* parsed := lift (JSON_parse (body_or_empty input)) in
  let product := js_or parsed (JObject []) in
  let* productId := fresh_uuid in
  let* product_name := lift (GetV product "name") in
  let* product_price := lift (GetV product "price") in
  let params :=
    {| put_TableName := dynamoDBTableName;
       put_Item := [("PK", JString productId);
                    ("name", product_name);
                    ("price", product_price)] |} in
  dbClient_put params ;;
  let successMessage := "Product with id = " +:+ productId +:+ " created" in
  logger_info successMessage ;;
  ret {| statusCode := 201;
         result_body := JSON_stringify (JObject [("message", JString successMessage)]);
         headers := None |}.

Definition processPostEvent (input : APIGatewayProxyEvent) : M APIGatewayProxyResult :=
  logger_info "Processing Post Event" ;;
  try_catch (postEvent_try input) (internal_error "Post").

Definition getAllEvent_try : M APIGatewayProxyResult :=
  let params := {| scan_TableName := dynamoDBTableName; scan_Limit := 20 |} in
  let* products := dbClient_scan params in
  let successMessage :=
    "Successfully retrieved all products: " +:+ template_items (Items products) in
  metrics_addMetric "getAllCount" "Count" (length (Items products)) ;;
  logger_info successMessage ;;
  ret {| statusCode := 200;
         result_body := JSON_stringify (JArray (map JObject (Items products)));
         headers := None |}.

Definition processGetAllEvent : M APIGatewayProxyResult :=
  logger_info "Processing Get All Event" ;;
  try_catch getAllEvent_try (internal_error "GetAll").

Definition getByIdEvent_try (input : APIGatewayProxyEvent) : M APIGatewayProxyResult :=
  let id := pathParameters_id input in
  (if strict_eq (js_of_id id) (JString "ForceError")
   then throw (MkError "Error" "BOOM")
   else ret tt) ;;
  let params :=
    {| get_TableName := dynamoDBTableName; get_Key := [("PK", js_of_id id)] |} in
  let* product := dbClient_get params in
  match Item product with
  | Some item =>
      let successMessage := "Product with id = " +:+ template_id id +:+ " found" in
      logger_info successMessage ;;
      ret {| statusCode := 200;
             result_body := JSON_stringify (JObject item);
             headers := None |}
  | None =>
      let notFoundMessage := "Product with id = " +:+ template_id id +:+ " NOT found" in
      logger_info notFoundMessage ;;
      ret {| statusCode := 404;
             result_body := JSON_stringify (JObject [("error", JString notFoundMessage)]);
             headers := None |}
  end.

Definition processGetByIdEvent (input : APIGatewayProxyEvent) : M APIGatewayProxyResult :=
  logger_info "Processing Get By Id Event" ;;
  try_catch (getByIdEvent_try input) (internal_error "GetById").

Definition deleteEvent_try (input : APIGatewayProxyEvent) : M APIGatewayProxyResult :=
  let id := pathParameters_id input in
  let getParams :=
    {| get_TableName := dynamoDBTableName; get_Key := [("PK", js_of_id id)] |} in
  let* product := dbClient_get getParams in
  match Item product with
  | Some _ =>
      let deleteParams :=
        {| delete_TableName := dynamoDBTableName;
           delete_Key := [("PK", js_of_id id)] |} in
      dbClient_delete deleteParams ;;
      let successMessage := "Product with id = " +:+ template_id id +:+ " was deleted" in
      logger_info successMessage ;;
      ret {| statusCode := 200;
             result_body := JSON_stringify (JObject [("message", JString successMessage)]);
             headers := None |}
  | None =>
      let notFoundMessage := "Product with id = " +:+ template_id id +:+ " was deleted" in
      logger_info notFoundMessage ;;
      ret {| statusCode := 404;
             result_body := JSON_stringify (JObject [("error", JString notFoundMessage)]);
             headers := None |}
  end.

Definition processDeleteEvent (input : APIGatewayProxyEvent) : M APIGatewayProxyResult :=
  logger_info "Processing Delete Event" ;;
  try_catch (deleteEvent_try input) (internal_error "Delete").

Definition response_headers : list (string * string) :=
  [("Content-Type", "application/json"); ("X-Custom-Header", "application/json")].

Definition addResponseHeaders (response : APIGatewayProxyResult)
  : M APIGatewayProxyResult :=
  logger_info "Adding Response Headers" ;;
  ret {| statusCode := statusCode response;
         result_body := result_body response;
         headers := Some response_headers |}.

(** The function handed to [middy]. *)
Definition baseHandler (event : APIGatewayProxyEvent) : M APIGatewayProxyResult :=
  logger_info "Starting to invoke Lambda handler" ;;
  if String.eqb (httpMethod event) "PUT" then
    let* r := processPutEvent event in addResponseHeaders r
  else if String.eqb (httpMethod event) "POST" then
    let* r := processPostEvent event in addResponseHeaders r
  else if String.eqb (httpMethod event) "GET" then
    match pathParameters event with
    | None => let* r := processGetAllEvent in addResponseHeaders r
    | Some _ => let* r := processGetByIdEvent event in addResponseHeaders r
    end
  else if String.eqb (httpMethod event) "DELETE" then
    let* r := processDeleteEvent event in addResponseHeaders r
  else
    let response :=
      {| statusCode := 500;
         result_body :=
           JSON_stringify (JObject [("message", JString "some error happened")]);
         headers := None |} in
    logger_error "Error happened while processing the request" ;;
    addResponseHeaders response.

Definition handler : APIGatewayProxyEvent -> M APIGatewayProxyResult :=
  middy baseHandler
    [injectLambdaContext logger; logMetrics metrics; captureLambdaHandler tracer].
End Handlers.
End Powertools.

(** ** Reference instances of the interfaces *)

Module Ref.

(** *** [JSON.parse] : the grammar of ECMA-404, on a string held as UTF-8 *)

Definition dquote : ascii := ascii_of_N 34.
Definition backslash : ascii := ascii_of_N 92.

Definition string_of_nat (n : nat) : string := NilZero.string_of_uint (Nat.to_uint n).

Definition SyntaxError (msg : string) : JSError := MkError "SyntaxError" msg.

Definition is_digit (c : ascii) : bool :=
  (48 <=? N_of_ascii c)%N && (N_of_ascii c <=? 57)%N.

Definition is_ws (c : ascii) : bool :=
  let n := N_of_ascii c in
  (n =? 32)%N || (n =? 9)%N || (n =? 10)%N || (n =? 13)%N.

(** The error at the first character that cannot be accepted, in the
    wording of V8. *)
Definition unexpected (rest : list ascii) (pos : nat) : JSError :=
  match rest with
  | [] => SyntaxError "Unexpected end of JSON input"
  | c :: _ =>
      if is_digit c || Ascii.eqb c "-"
      then SyntaxError ("Unexpected number in JSON at position " +:+ string_of_nat pos)
      else if Ascii.eqb c dquote
      then SyntaxError ("Unexpected string in JSON at position " +:+ string_of_nat pos)
      else SyntaxError ("Unexpected token " +:+ String c EmptyString
                        +:+ " in JSON at position " +:+ string_of_nat pos)
  end.

(** What is left of the input, and how many characters were consumed. *)
Definition Cursor : Type := (list ascii * nat)%type.

Fixpoint skip_ws (l : list ascii) (pos : nat) : Cursor :=
  match l with
  | c :: rest => if is_ws c then skip_ws rest (S pos) else (l, pos)
  | [] => (l, pos)
  end.

(** The keywords [null], [true] and [false]. *)
Fixpoint expect (word : list ascii) (l : list ascii) (pos : nat) : Completion Cursor :=
  match word with
  | [] => Normal (l, pos)
  | w :: word' =>
      match l with
      | c :: rest => if Ascii.eqb c w then expect word' rest (S pos)
                     else Throw (unexpected l pos)
      | [] => Throw (unexpected l pos)
      end
  end.

(** **** Numbers *)

Fixpoint take_digits (l : list ascii) : list ascii * list ascii :=
  match l with
  | c :: rest =>
      if is_digit c then let '(ds, r) := take_digits rest in (c :: ds, r)
      else ([], l)
  | [] => ([], l)
  end.

Definition Z_of_digits (ds : list ascii) : Z :=
  fold_left (fun acc c => 10 * acc + (Z.of_N (N_of_ascii c) - 48)) ds 0.

(** The binary64 nearest to [m * 10^e10] for [m > 0], ties to even. *)
Definition decimal_to_binary64 (negative : bool) (m : Z) (e10 : Z) : spec_float :=
  if m =? 0 then S754_zero negative
  else if 0 <=? e10 then
    binary_normalize 53 1024 (cond_Zopp negative (m * 10 ^ e10)) 0 negative
  else
    let d := 10 ^ (- e10) in
    let s := Z.max 0 (Zdigits2 d - Zdigits2 m + 56) in
    let '(q, r) := Z.div_eucl (Z.shiftl m s) d in
    let loc := if r =? 0 then loc_Exact else loc_Inexact (Z.compare (2 * r) d) in
    binary_round_aux 53 1024 negative q (- s) loc.

(** [-? int frac? exp?] starting at [l]. *)
Definition parse_number (l : list ascii) (pos : nat)
  : Completion (spec_float * Cursor) :=
  let '(negative, l1, p1) :=
    match l with
    | c :: rest => if Ascii.eqb c "-" then (true, rest, S pos) else (false, l, pos)
    | [] => (false, l, pos)
    end in
  let '(int_ds, l2) :=
    match l1 with
    | c :: rest => if Ascii.eqb c "0" then ([c], rest) else take_digits l1
    | [] => ([], l1)
    end in
  let p2 := (p1 + length int_ds)%nat in
  match int_ds with
  | [] => Throw (unexpected l1 p1)
  | _ =>
      let frac :=
        match l2 with
        | c :: rest =>
            if Ascii.eqb c "." then
              let '(ds, r) := take_digits rest in
              match ds with
              | [] => Throw (unexpected rest (S p2))
              | _ => Normal (ds, r, (S p2 + length ds)%nat)
              end
            else Normal ([], l2, p2)
        | [] => Normal ([], l2, p2)
        end in
      match frac with
      | Throw e => Throw e
      | Normal (frac_ds, l3, p3) =>
          let expo :=
            match l3 with
            | c :: rest =>
                if Ascii.eqb c "e" || Ascii.eqb c "E" then
                  let '(eneg, l4, p4) :=
                    match rest with
                    | sg :: rest' =>
                        if Ascii.eqb sg "-" then (true, rest', S (S p3))
                        else if Ascii.eqb sg "+" then (false, rest', S (S p3))
                        else (false, rest, S p3)
                    | [] => (false, rest, S p3)
                    end in
                  let '(ds, r) := take_digits l4 in
                  match ds with
                  | [] => Throw (unexpected l4 p4)
                  | _ => Normal (cond_Zopp eneg (Z_of_digits ds), r, (p4 + length ds)%nat)
                  end
                else Normal (0, l3, p3)
            | [] => Normal (0, l3, p3)
            end in
          match expo with
          | Throw e => Throw e
          | Normal (e10, l5, p5) =>
              Normal (decimal_to_binary64 negative
                        (Z_of_digits (int_ds ++ frac_ds))
                        (e10 - Z.of_nat (length frac_ds)),
                      (l5, p5))
          end
      end
  end.

(** **** Strings *)

Definition hex_value (c : ascii) : option N :=
  let n := N_of_ascii c in
  if (48 <=? n)%N && (n <=? 57)%N then Some (n - 48)%N
  else if (65 <=? n)%N && (n <=? 70)%N then Some (n - 55)%N
  else if (97 <=? n)%N && (n <=? 102)%N then Some (n - 87)%N
  else None.

Definition hex4 (a b c d : ascii) : option N :=
  match hex_value a, hex_value b, hex_value c, hex_value d with
  | Some x, Some y, Some z, Some w => Some (((x * 16 + y) * 16 + z) * 16 + w)%N
  | _, _, _, _ => None
  end.

(** UTF-8 of a code point (a lone surrogate is encoded like any other
    three-byte code point). *)
Definition utf8 (cp : N) : list ascii :=
  if (cp <? 128)%N then [ascii_of_N cp]
  else if (cp <? 2048)%N then
    [ascii_of_N (192 + cp / 64); ascii_of_N (128 + cp mod 64)]
  else if (cp <? 65536)%N then
    [ascii_of_N (224 + cp / 4096); ascii_of_N (128 + (cp / 64) mod 64);
     ascii_of_N (128 + cp mod 64)]
  else
    [ascii_of_N (240 + cp / 262144); ascii_of_N (128 + (cp / 4096) mod 64);
     ascii_of_N (128 + (cp / 64) mod 64); ascii_of_N (128 + cp mod 64)].

Definition is_high_surrogate (u : N) : bool := (55296 <=? u)%N && (u <? 56320)%N.
Definition is_low_surrogate (u : N) : bool := (56320 <=? u)%N && (u <? 57344)%N.

Definition simple_escape (c : ascii) : option ascii :=
  if Ascii.eqb c dquote then Some dquote
  else if Ascii.eqb c backslash then Some backslash
  else if Ascii.eqb c "/" then Some "/"%char
  else if Ascii.eqb c "b" then Some (ascii_of_N 8)
  else if Ascii.eqb c "f" then Some (ascii_of_N 12)
  else if Ascii.eqb c "n" then Some (ascii_of_N 10)
  else if Ascii.eqb c "r" then Some (ascii_of_N 13)
  else if Ascii.eqb c "t" then Some (ascii_of_N 9)
  else None.

(** The characters of a string literal after its opening quote. *)
Fixpoint parse_chars (fuel : nat) (l : list ascii) (pos : nat) (acc : list ascii)
  : Completion (string * Cursor) :=
  match fuel with
  | O => Throw (MkError "RangeError" "Maximum call stack size exceeded")
  | S fuel' =>
      match l with
      | [] => Throw (unexpected l pos)
      | c :: rest =>
          if Ascii.eqb c dquote then
            Normal (string_of_list_ascii (rev acc), (rest, S pos))
          else if Ascii.eqb c backslash then
            match rest with
            | [] => Throw (unexpected rest (S pos))
            | e :: rest1 =>
                match simple_escape e with
                | Some x => parse_chars fuel' rest1 (S (S pos)) (x :: acc)
                | None =>
                    if Ascii.eqb e "u" then
                      match rest1 with
                      | h1 :: h2 :: h3 :: h4 :: rest2 =>
                          match hex4 h1 h2 h3 h4 with
                          | None => Throw (unexpected rest1 (S (S pos)))
                          | Some u =>
                              let single :=
                                parse_chars fuel' rest2 (pos + 6)%nat
                                  (rev (utf8 u) ++ acc) in
                              if is_high_surrogate u then
                                match rest2 with
                                | b :: x :: l1 :: l2 :: l3 :: l4 :: rest3 =>
                                    match hex4 l1 l2 l3 l4 with
                                    | Some lo =>
                                        if Ascii.eqb b backslash && Ascii.eqb x "u"
                                           && is_low_surrogate lo
                                        then
                                          parse_chars fuel' rest3 (pos + 12)%nat
                                            (rev (utf8 (65536 + (u - 55296) * 1024
                                                        + (lo - 56320))%N) ++ acc)
                                        else single
                                    | None => single
                                    end
                                | _ => single
                                end
                              else single
                          end
                      | _ => Throw (unexpected [] (pos + 2 + length rest1)%nat)
                      end
                    else Throw (unexpected rest (S pos))
                end
            end
          else if (N_of_ascii c <? 32)%N then Throw (unexpected l pos)
          else parse_chars fuel' rest (S pos) (c :: acc)
      end
  end.

(** **** Objects: property order *)

(** An array index: the canonical decimal form of an integer below
    [2^32 - 1].  Such keys come first in an object, in ascending order. *)
Definition array_index (k : string) : option Z :=
  let ds := list_ascii_of_string k in
  match ds with
  | [] => None
  | c :: rest =>
      if forallb is_digit ds
         && (negb (Ascii.eqb c "0") || Nat.eqb (length rest) 0)
         && (length ds <=? 10)%nat
         && (Z_of_digits ds <? 4294967295)
      then Some (Z_of_digits ds)
      else None
  end.

(** Put a new array-index key at its place among the array-index keys. *)
Fixpoint insert_index (i : Z) (k : string) (v : JSValue)
    (props : list (string * JSValue)) : list (string * JSValue) :=
  match props with
  | [] => [(k, v)]
  | (k', v') :: rest =>
      match array_index k' with
      | Some j => if j <? i then (k', v') :: insert_index i k v rest
                  else (k, v) :: props
      | None => (k, v) :: props
      end
  end.

Fixpoint replace_prop (k : string) (v : JSValue)
    (props : list (string * JSValue)) : list (string * JSValue) :=
  match props with
  | [] => []
  | (k', v') :: rest =>
      if String.eqb k k' then (k', v) :: rest else (k', v') :: replace_prop k v rest
  end.

(** [obj[k] = v] : a later duplicate of a key replaces its value. *)
Definition define_prop (k : string) (v : JSValue)
    (props : list (string * JSValue)) : list (string * JSValue) :=
  match lookup_prop k props with
  | Some _ => replace_prop k v props
  | None =>
      match array_index k with
      | Some i => insert_index i k v props
      | None => props ++ [(k, v)]
      end
  end.

(** **** Values *)

Definition out_of_stack {A : Type} : Completion A :=
  Throw (MkError "RangeError" "Maximum call stack size exceeded").

(** [parse_value] reads one value; [parse_elements] the rest of an array
    after its first element; [parse_members] the members of an object from
    a key on. *)
Fixpoint parse_value (fuel : nat) (l0 : list ascii) (pos0 : nat)
  : Completion (JSValue * Cursor) :=
  match fuel with
  | O => out_of_stack
  | S fuel' =>
      let '(l, pos) := skip_ws l0 pos0 in
      match l with
      | [] => Throw (unexpected l pos)
      | c :: rest =>
          if Ascii.eqb c "n" then
            match expect (list_ascii_of_string "null") l pos with
            | Normal cur => Normal (JNull, cur)
            | Throw e => Throw e
            end
          else if Ascii.eqb c "t" then
            match expect (list_ascii_of_string "true") l pos with
            | Normal cur => Normal (JBool true, cur)
            | Throw e => Throw e
            end
          else if Ascii.eqb c "f" then
            match expect (list_ascii_of_string "false") l pos with
            | Normal cur => Normal (JBool false, cur)
            | Throw e => Throw e
            end
          else if Ascii.eqb c dquote then
            match parse_chars (S (length rest)) rest (S pos) [] with
            | Normal (str, cur) => Normal (JString str, cur)
            | Throw e => Throw e
            end
          else if is_digit c || Ascii.eqb c "-" then
            match parse_number l pos with
            | Normal (x, cur) => Normal (JNumber x, cur)
            | Throw e => Throw e
            end
          else if Ascii.eqb c "[" then
            let '(l1, p1) := skip_ws rest (S pos) in
            match l1 with
            | c1 :: rest1 =>
                if Ascii.eqb c1 "]" then Normal (JArray [], (rest1, S p1))
                else
                  match parse_value fuel' l1 p1 with
                  | Normal (v, (l2, p2)) => parse_elements fuel' l2 p2 [v]
                  | Throw e => Throw e
                  end
            | [] => Throw (unexpected l1 p1)
            end
          else if Ascii.eqb c "{" then
            let '(l1, p1) := skip_ws rest (S pos) in
            match l1 with
            | c1 :: rest1 =>
                if Ascii.eqb c1 "}" then Normal (JObject [], (rest1, S p1))
                else parse_members fuel' l1 p1 []
            | [] => Throw (unexpected l1 p1)
            end
          else Throw (unexpected l pos)
      end
  end
with parse_elements (fuel : nat) (l0 : list ascii) (pos0 : nat) (acc : list JSValue)
  : Completion (JSValue * Cursor) :=
  match fuel with
  | O => out_of_stack
  | S fuel' =>
      let '(l, pos) := skip_ws l0 pos0 in
      match l with
      | [] => Throw (unexpected l pos)
      | c :: rest =>
          if Ascii.eqb c "]" then Normal (JArray (rev acc), (rest, S pos))
          else if Ascii.eqb c "," then
            match parse_value fuel' rest (S pos) with
            | Normal (v, (l2, p2)) => parse_elements fuel' l2 p2 (v :: acc)
            | Throw e => Throw e
            end
          else Throw (unexpected l pos)
      end
  end
with parse_members (fuel : nat) (l : list ascii) (pos : nat)
    (acc : list (string * JSValue))
  : Completion (JSValue * Cursor) :=
  match fuel with
  | O => out_of_stack
  | S fuel' =>
      match l with
      | [] => Throw (unexpected l pos)
      | c :: rest =>
          if Ascii.eqb c dquote then
            match parse_chars (S (length rest)) rest (S pos) [] with
            | Throw e => Throw e
            | Normal (key, (l1, p1)) =>
                let '(l2, p2) := skip_ws l1 p1 in
                match l2 with
                | [] => Throw (unexpected l2 p2)
                | c2 :: rest2 =>
                    if Ascii.eqb c2 ":" then
                      match parse_value fuel' rest2 (S p2) with
                      | Throw e => Throw e
                      | Normal (v, (l3, p3)) =>
                          let acc' := define_prop key v acc in
                          let '(l4, p4) := skip_ws l3 p3 in
                          match l4 with
                          | [] => Throw (unexpected l4 p4)
                          | c4 :: rest4 =>
                              if Ascii.eqb c4 "}" then
                                Normal (JObject acc', (rest4, S p4))
                              else if Ascii.eqb c4 "," then
                                let '(l5, p5) := skip_ws rest4 (S p4) in
                                parse_members fuel' l5 p5 acc'
                              else Throw (unexpected l4 p4)
                          end
                      end
                    else Throw (unexpected l2 p2)
                end
            end
          else Throw (unexpected l pos)
      end
  end.

(** [JSON.parse(text)] : one value, then nothing but white space. *)
Definition parse (text : string) : Completion JSValue :=
  let l := list_ascii_of_string text in
  match parse_value (2 * length l + 2) l 0 with
  | Throw e => Throw e
  | Normal (v, (l1, p1)) =>
      let '(l2, p2) := skip_ws l1 p1 in
      match l2 with
      | [] => Normal v
      | _ => Throw (unexpected l2 p2)
      end
  end.

(** *** [JSON.stringify] *)

Definition string_of_Z (z : Z) : string := NilZero.string_of_int (Z.to_int z).

Definition zeros (n : Z) : string :=
  string_of_list_ascii (replicate (Z.to_nat n) "0"%char).

(** A positive rational [num / den] against a power of ten. *)
Definition scale (num den k : Z) : Z * Z :=
  if 0 <=? k then (num, den * 10 ^ k) else (num * 10 ^ (- k), den).

(** [floor (log10 (num / den))], from an estimate that is off by one at
    most. *)
Fixpoint floor_log10 (fuel : nat) (num den t : Z) : Z :=
  match fuel with
  | O => t
  | S fuel' =>
      let '(a, b) := scale num den t in
      if a <? b then floor_log10 fuel' num den (t - 1)
      else if 10 * b <=? a then floor_log10 fuel' num den (t + 1)
      else t
  end.

Definition same_finite (m : positive) (e : Z) (y : spec_float) : bool :=
  match y with
  | S754_finite false m' e' => Pos.eqb m m' && (e =? e')
  | _ => false
  end.

(** The shortest decimal [d * 10^k] that reads back as [m * 2^e], the
    closest to it among those of its length: [n] digits are tried for
    [n = tried + 1, ...]. *)
Fixpoint shortest_digits (fuel : nat) (m : positive) (e : Z) (num den t : Z)
    (n : Z) : Z * Z :=
  let k := t - n + 1 in
  let '(a, b) := scale num den k in
  let lo := a / b in
  let hi := lo + 1 in
  let ok_lo := same_finite m e (decimal_to_binary64 false lo k) in
  let ok_hi := same_finite m e (decimal_to_binary64 false hi k) in
  let nearer :=
    match Z.compare (2 * a) ((2 * lo + 1) * b) with
    | Lt => lo
    | Gt => hi
    | Eq => if Z.even lo then lo else hi
    end in
  if ok_lo && ok_hi then (nearer, k)
  else if ok_lo then (lo, k)
  else if ok_hi then (hi, k)
  else
    match fuel with
    | O => (nearer, k)
    | S fuel' => shortest_digits fuel' m e num den t (n + 1)
    end.

Fixpoint strip_zeros (fuel : nat) (d k : Z) : Z * Z :=
  match fuel with
  | O => (d, k)
  | S fuel' => if (d mod 10 =? 0) && negb (d =? 0) then strip_zeros fuel' (d / 10) (k + 1)
               else (d, k)
  end.

(** [Number::toString] in radix 10, ECMA-262 6.1.6.1.20. *)
Definition Number_toString (x : spec_float) : string :=
  match x with
  | S754_nan => "NaN"
  | S754_zero _ => "0"
  | S754_infinity s => if s then "-Infinity" else "Infinity"
  | S754_finite s m e =>
      let '(num, den) := if 0 <=? e then (Z.pos m * 2 ^ e, 1) else (Z.pos m, 2 ^ (- e)) in
      let t := floor_log10 4 num den (((Zdigits2 (Z.pos m) + e - 1) * 30103) / 100000) in
      let '(d0, k0) := shortest_digits 17 m e num den t 1 in
      let '(d, k) := strip_zeros 400 d0 k0 in
      let ds := string_of_Z d in
      let len := Z.of_nat (String.length ds) in
      let n := k + len in
      let text :=
        if (len <=? n) && (n <=? 21) then ds +:+ zeros (n - len)
        else if (0 <? n) && (n <=? 21) then
          substring 0 (Z.to_nat n) ds +:+ "."
          +:+ substring (Z.to_nat n) (Z.to_nat (len - n)) ds
        else if (-6 <? n) && (n <=? 0) then "0." +:+ zeros (- n) +:+ ds
        else
          let exponent :=
            (if 0 <=? n - 1 then "+" else "-") +:+ string_of_Z (Z.abs (n - 1)) in
          if len =? 1 then ds +:+ "e" +:+ exponent
          else substring 0 1 ds +:+ "." +:+ substring 1 (Z.to_nat (len - 1)) ds
               +:+ "e" +:+ exponent in
      if s then "-" +:+ text else text
  end.

Definition hex_digit (n : N) : ascii :=
  if (n <? 10)%N then ascii_of_N (48 + n) else ascii_of_N (87 + n).

(** [QuoteJSONString], ECMA-262 25.5.2.3. *)
Definition quote_char (c : ascii) : list ascii :=
  let n := N_of_ascii c in
  if Ascii.eqb c dquote then [backslash; dquote]
  else if Ascii.eqb c backslash then [backslash; backslash]
  else if (n =? 8)%N then [backslash; "b"%char]
  else if (n =? 12)%N then [backslash; "f"%char]
  else if (n =? 10)%N then [backslash; "n"%char]
  else if (n =? 13)%N then [backslash; "r"%char]
  else if (n =? 9)%N then [backslash; "t"%char]
  else if (n <? 32)%N then
    [backslash; "u"%char; "0"%char; "0"%char; hex_digit (n / 16); hex_digit (n mod 16)]
  else [c].

(** The characters of a quoted string.  The three bytes of a lone surrogate
    are written as its [\uXXXX] escape; other characters above ASCII are
    copied. *)
Fixpoint quote_chars (l : list ascii) : list ascii :=
  match l with
  | [] => []
  | a :: tail =>
      match tail with
      | b :: c :: rest =>
          let nb := N_of_ascii b in
          if (N_of_ascii a =? 237)%N && (160 <=? nb)%N && (nb <=? 191)%N then
            let code_unit := (53248 + (nb - 128) * 64 + (N_of_ascii c - 128))%N in
            [backslash; "u"%char;
             hex_digit (code_unit / 4096); hex_digit ((code_unit / 256) mod 16);
             hex_digit ((code_unit / 16) mod 16); hex_digit (code_unit mod 16)]
            ++ quote_chars rest
          else quote_char a ++ quote_chars tail
      | _ => quote_char a ++ quote_chars tail
      end
  end.

Definition quote (str : string) : string :=
  string_of_list_ascii
    ([dquote] ++ quote_chars (list_ascii_of_string str) ++ [dquote]).

(** [SerializeJSONProperty] without replacer or indentation; [None] is the
    [undefined] result, which drops the property of an object and reads
    [null] in an array. *)
Fixpoint serialize (v : JSValue) : option string :=
  match v with
  | JUndefined => None
  | JNull => Some "null"
  | JBool b => Some (if b then "true" else "false")
  | JNumber x =>
      Some match x with
           | S754_nan | S754_infinity _ => "null"
           | _ => Number_toString x
           end
  | JString str => Some (quote str)
  | JArray elems =>
      Some ("[" +:+ String.concat ","
                      (map (fun e => default "null" (serialize e)) elems) +:+ "]")
  | JObject props =>
      let member (kv : string * JSValue) : list string :=
        match serialize (snd kv) with
        | Some text => [quote (fst kv) +:+ ":" +:+ text]
        | None => []
        end in
      Some ("{" +:+ String.concat "," (flat_map member props) +:+ "}")
  end.

(** [JSON.stringify(v)] for the values the handlers serialize, which are
    objects and arrays. *)
Definition stringify (v : JSValue) : string := default "undefined" (serialize v).

#[export] Instance ref_JSON : JSONGlobal :=
  {| JSON_parse := parse; JSON_stringify := stringify |}.

(** *** A record store with the contract of the DocumentClient

    One table keyed by the string attribute [PK]: [put] replaces the whole
    record under its key, [get] is a point lookup, [delete] removes the
    record if there is one, [scan] reads at most [Limit] records in the
    order of the table.  A call fails when the store is unreachable or when
    its parameters are not valid for the table. *)

Record RefTable : Type := MkRefTable {
  rows : gmap string AttributeMap;
  online : bool;
}.

Definition ServiceUnavailable : JSError :=
  MkError "ServiceUnavailable" "Service Unavailable".

Definition ValidationException (msg : string) : JSError :=
  MkError "ValidationException" msg.

(** The key of a [Key] parameter: exactly the attribute [PK], a string. *)
Definition primary_key (key : AttributeMap) : option string :=
  match key with
  | [(attr, JString k)] => if String.eqb attr "PK" then Some k else None
  | _ => None
  end.

(** The key of an item: its attribute [PK], a string. *)
Definition item_key (item : AttributeMap) : option string :=
  match lookup_prop "PK" item with
  | Some (JString k) => Some k
  | _ => None
  end.

Definition ref_get (params : GetItemInput) (t : RefTable) : Completion GetItemOutput :=
  if negb (online t) then Throw ServiceUnavailable
  else
    match primary_key (get_Key params) with
    | Some k => Normal {| Item := rows t !! k |}
    | None =>
        Throw (ValidationException "The provided key element does not match the schema")
    end.

Definition ref_put (params : PutItemInput) (t : RefTable) : Completion unit * RefTable :=
  if negb (online t) then (Throw ServiceUnavailable, t)
  else
    match item_key (put_Item params) with
    | Some k =>
        (Normal tt, {| rows := <[k := put_Item params]> (rows t); online := online t |})
    | None =>
        (Throw (ValidationException
                  "One or more parameter values were invalid: Missing the key PK in the item"),
         t)
    end.

Definition ref_delete (params : DeleteItemInput) (t : RefTable)
  : Completion unit * RefTable :=
  if negb (online t) then (Throw ServiceUnavailable, t)
  else
    match primary_key (delete_Key params) with
    | Some k => (Normal tt, {| rows := delete k (rows t); online := online t |})
    | None =>
        (Throw (ValidationException "The provided key element does not match the schema"),
         t)
    end.

Definition ref_scan (params : ScanInput) (t : RefTable) : Completion ScanOutput :=
  if negb (online t) then Throw ServiceUnavailable
  else if scan_Limit params <=? 0 then
    Throw (ValidationException "Limit must be greater than or equal to 1")
  else
    Normal {| Items := take (Z.to_nat (scan_Limit params))
                         (map snd (map_to_list (rows t))) |}.

#[export] Instance ref_store : DocumentClient :=
  {| Table := RefTable;
     db_get := ref_get; db_put := ref_put;
     db_delete := ref_delete; db_scan := ref_scan |}.

(** *** [uuidv4] from a 128-bit pseudo-random state *)

Fixpoint hex_of (width : nat) (n : N) (acc : list ascii) : list ascii :=
  match width with
  | O => acc
  | S width' => hex_of width' (n / 16)%N (hex_digit (n mod 16)%N :: acc)
  end.

Definition hex (width : nat) (n : N) : string := string_of_list_ascii (hex_of width n []).

(** The text form of a version-4 UUID made of the 128 bits [r], with the
    version and variant fields set. *)
Definition uuid_text (r : N) : string :=
  hex 8 (r / 2 ^ 96)%N +:+ "-"
  +:+ hex 4 ((r / 2 ^ 80) mod 2 ^ 16)%N +:+ "-"
  +:+ hex 4 (16384 + (r / 2 ^ 64) mod 2 ^ 12)%N +:+ "-"
  +:+ hex 4 (32768 + (r / 2 ^ 48) mod 2 ^ 14)%N +:+ "-"
  +:+ hex 12 (r mod 2 ^ 48)%N.

Definition ref_uuidv4 (g : N) : string * N :=
  (uuid_text g,
   ((g * 47026247687942121848144207491837523525 + 1442695040888963407) mod 2 ^ 128)%N).

#[export] Instance ref_uuid : UuidGen := {| Entropy := N; uuidv4 := ref_uuidv4 |}.

#[export] Instance ref_env : ProcessEnv :=
  {| PRODUCT_TABLE_NAME := Some "products";
     AWS_ACCOUNT_ID := None;
     ENVIRONMENT := None;
     AWS_REGION := None;
     AWS_EXECUTION_ENV := None |}.

(** *** Running the handlers on the reference instances *)

(** JSON text written with single quotes in place of double quotes. *)
Definition json (text : string) : string :=
  string_of_list_ascii
    (map (fun c => if Ascii.eqb c "'" then dquote else c) (list_ascii_of_string text)).

Definition table_of (items : list (string * AttributeMap)) : RefTable :=
  {| rows := list_to_map items; online := true |}.

Definition world_of (t : RefTable) : World :=
  {| table := t; entropy := 2024%N; calls := []; telemetry := [] |}.

Definition product (id name : string) : AttributeMap :=
  [("PK", JString id); ("name", JString name); ("price", JUndefined)].
End Ref.

(** ** The contract the handlers are checked against *)

Module Contract.
Section Contract.
Context `{JSONGlobal} `{DocumentClient} `{UuidGen} `{ProcessEnv}.
Local Open Scope js_scope.

(** What the dispatcher does around an operation: it logs the event, runs
    the operation and finalizes the response. *)
Definition dispatched (event : APIGatewayProxyEvent)
    (operation : M APIGatewayProxyResult) : M APIGatewayProxyResult :=
  emit (ConsoleInfoEvent "Lambda Invocation Event :: " event) ;;
  let* r := operation in Plain.addResponseHeaders r.

(** The generic failure of the dispatcher, before finalization. *)
Definition generic_failure : M APIGatewayProxyResult :=
  Plain.console_error "Error happened while processing the request" ;;
  ret {| statusCode := 500;
         result_body :=
           JSON_stringify (JObject [("message", JString "some error happened")]);
         headers := None |}.

(** A response as the caller of the dispatcher receives it: a status, the
    JSON text of a payload and the two fixed headers. *)
Definition response (status : Z) (payload : JSValue) : APIGatewayProxyResult :=
  {| statusCode := status;
     result_body := JSON_stringify payload;
     headers := Some [("Content-Type", "application/json");
                      ("X-Custom-Header", "application/json")] |}.

Definition error_payload (msg : string) : JSValue := JObject [("error", JString msg)].
Definition message_payload (msg : string) : JSValue := JObject [("message", JString msg)].

(** The 500 response a handler gives for a fault, before finalization. *)
Definition fault_response (operation : string) (err : JSError) : APIGatewayProxyResult :=
  {| statusCode := 500;
     result_body :=
       JSON_stringify
         (error_payload ("Internal Server Error for " +:+ operation +:+ " :: "
                         +:+ message err));
     headers := None |}.

(** A field of the product a body decodes to: [(parsed || {}).key]. *)
Definition product_field (parsed : JSValue) (key : string) : JSValue :=
  match js_or parsed (JObject []) with
  | JObject props => default JUndefined (lookup_prop key props)
  | _ => JUndefined
  end.

(** The parameters of a lookup or a delete by id. *)
Definition get_by (id : option string) : GetItemInput :=
  {| get_TableName := Plain.dynamoDBTableName; get_Key := [("PK", js_of_id id)] |}.
Definition delete_by (id : option string) : DeleteItemInput :=
  {| delete_TableName := Plain.dynamoDBTableName; delete_Key := [("PK", js_of_id id)] |}.

(** The record an upsert writes for a decoded body. *)
Definition upsert_of (parsed : JSValue) : PutItemInput :=
  {| put_TableName := Plain.dynamoDBTableName;
     put_Item := [("PK", product_field parsed "id");
                  ("name", product_field parsed "name");
                  ("price", product_field parsed "price")] |}.

(** The first page of a scan. *)
Definition first_page : ScanInput :=
  {| scan_TableName := Plain.dynamoDBTableName; scan_Limit := 20 |}.

(** A handler's response once [addResponseHeaders] has assigned its
    headers. *)
Definition finalized (r : APIGatewayProxyResult) : APIGatewayProxyResult :=
  {| statusCode := statusCode r;
     result_body := result_body r;
     headers := Some [("Content-Type", "application/json");
                      ("X-Custom-Header", "application/json")] |}.

(** Two worlds with the same store: same table, same entropy, same calls
    issued; the telemetry may differ. *)
Definition same_store (w1 w2 : World) : Prop :=
  table w1 = table w2 /\ entropy w1 = entropy w2 /\ calls w1 = calls w2.

(** The store is left as it was: same table, same entropy, no call. *)
Definition untouched (w w' : World) : Prop :=
  table w' = table w /\ entropy w' = entropy w /\ calls w' = calls w.

(** Two computations agree when, from worlds with the same store, they
    complete alike and leave worlds with the same store. *)
Definition agree {A : Type} (m1 m2 : M A) : Prop :=
  forall w1 w2,
    same_store w1 w2 ->
    fst (m1 w1) = fst (m2 w2) /\ same_store (snd (m1 w1)) (snd (m2 w2)).

(** A handler [run], which logs [entry] and then guards [block], catches
    the faults of [block]: it always returns a response, and when [block]
    throws it returns the 500 response made of the fault's message. *)
Definition catches (operation entry : string)
    (block run : M APIGatewayProxyResult) : Prop :=
  forall w,
    (exists r w', run w = (Normal r, w'))
    /\ (forall e w1,
          block (snd (Plain.console_info entry w)) = (Throw e, w1) ->
          exists w', run w = (Normal (fault_response operation e), w')
                     /\ same_store w1 w').

(** The message of both outcomes of a delete. *)
Definition deleted_message (id : option string) : string :=
  "Product with id = " +:+ template_id id +:+ " was deleted".

(** What the handlers rely on from the record store (section 6 of the
    specification): the table holds a sequence of records, a scan returns
    the first [Limit] of them as they are stored, and a record that was
    put is the one a lookup of its key returns. *)
Class StoreContract : Type := {
  records : Table -> list AttributeMap;
  scan_first :
    forall params t out,
      db_scan params t = Normal out ->
      Items out = take (Z.to_nat (scan_Limit params)) (records t);
  get_after_put :
    forall params t t' key,
      db_put params t = (Normal tt, t') ->
      lookup_prop "PK" (put_Item params) = Some key ->
      db_get {| get_TableName := put_TableName params; get_Key := [("PK", key)] |} t'
      = Normal {| Item := Some (put_Item params) |};
}.
End Contract.
End Contract.

(** ** Requests and worlds to run the handlers on *)

Module Scenario.
Import Ref.

(** The records of a reference table, in the order of the table. *)
Definition ref_records (t : RefTable) : list AttributeMap :=
  map snd (map_to_list (rows t)).

(** A table with the single product [p1]. *)
Definition shelf : RefTable := table_of [("p1", product "p1" "Widget")].
Definition w0 : World := world_of shelf.

(** A table with the 21 products [p1] ... [p21]. *)
Definition crowd : list (string * AttributeMap) :=
  map (fun n => let id := "p" +:+ string_of_nat n in (id, product id "Widget"))
      (seq 1 21).
Definition crowded : World := world_of (table_of crowd).

(** A store that cannot be reached. *)
Definition unreachable : World :=
  world_of {| rows := rows shelf; online := false |}.

Definition get_all : APIGatewayProxyEvent := MkEvent "GET" None None.
Definition get_p1 : APIGatewayProxyEvent := MkEvent "GET" (Some [("id", "p1")]) None.
Definition get_p2 : APIGatewayProxyEvent := MkEvent "GET" (Some [("id", "p2")]) None.
Definition get_ForceError : APIGatewayProxyEvent :=
  MkEvent "GET" (Some [("id", "ForceError")]) None.

(** A GET on a route whose path parameter is not named [id]. *)
Definition get_productId : APIGatewayProxyEvent :=
  MkEvent "GET" (Some [("productId", "p1")]) None.

Definition put_p2 : APIGatewayProxyEvent :=
  MkEvent "PUT" (Some [("id", "p2")])
    (Some (json "{'id':'p2','name':'Gadget','price':9.99}")).
(** What the body of [put_p2] decodes to; the price is the binary64
    nearest to 9.99. *)
Definition gadget : JSValue :=
  JObject [("id", JString "p2");
           ("name", JString "Gadget");
           ("price", JNumber (S754_finite false 5623870034678907 (-49)))].
Definition put_mismatch : APIGatewayProxyEvent :=
  MkEvent "PUT" (Some [("id", "p2")])
    (Some (json "{'id':'p3','name':'Gadget','price':9.99}")).
(** What the body of [put_mismatch] decodes to. *)
Definition mismatched : JSValue :=
  JObject [("id", JString "p3");
           ("name", JString "Gadget");
           ("price", JNumber (S754_finite false 5623870034678907 (-49)))].
Definition put_ForceError : APIGatewayProxyEvent :=
  MkEvent "PUT" (Some [("id", "ForceError")])
    (Some (json "{'id':'ForceError','name':'Gadget'}")).
Definition put_truncated : APIGatewayProxyEvent :=
  MkEvent "PUT" (Some [("id", "p2")]) (Some (json "{'id':'p2','name':")).
Definition put_null : APIGatewayProxyEvent :=
  MkEvent "PUT" (Some [("id", "p2")]) (Some "null").
Definition post_no_body : APIGatewayProxyEvent := MkEvent "POST" None None.
Definition post_null : APIGatewayProxyEvent := MkEvent "POST" None (Some "null").
Definition delete_p1 : APIGatewayProxyEvent :=
  MkEvent "DELETE" (Some [("id", "p1")]) None.
Definition delete_p2 : APIGatewayProxyEvent :=
  MkEvent "DELETE" (Some [("id", "p2")]) None.
Definition patch_p1 : APIGatewayProxyEvent :=
  MkEvent "PATCH" (Some [("id", "p1")]) None.
End Scenario.

(** ** What a run adds to the world *)

Module Coverage.
Section Coverage.
Context `{JSONGlobal} `{DocumentClient} `{UuidGen} `{ProcessEnv}.

(** The [TableName] a call carries. *)
Definition call_TableName (c : StoreCall) : string :=
  match c with
  | CallGet params => get_TableName params
  | CallPut params => put_TableName params
  | CallDelete params => delete_TableName params
  | CallScan params => scan_TableName params
  end.

Definition is_put (c : StoreCall) : bool :=
  match c with CallPut _ => true | _ => false end.

Definition is_delete (c : StoreCall) : bool :=
  match c with CallDelete _ => true | _ => false end.

(** A record written by [console.error] or [logger.error]. *)
Definition is_error_log (t : Telemetry) : bool :=
  match t with
  | ConsoleError _ | LoggerError _ _ => true
  | _ => false
  end.

Definition is_metric (t : Telemetry) : bool :=
  match t with MetricAdded _ _ _ _ => true | _ => false end.

(** The parameters of the write of [processPostEvent], for a generated id
    and a decoded body. *)
Definition create_of (productId : string) (parsed : JSValue) : PutItemInput :=
  {| put_TableName := Plain.dynamoDBTableName;
     put_Item := [("PK", JString productId);
                  ("name", Contract.product_field parsed "name");
                  ("price", Contract.product_field parsed "price")] |}.

(** The status codes a method can be answered with. *)
Definition statuses_of (method : string) : list Z :=
  if String.eqb method "PUT" then [201; 400; 500]
  else if String.eqb method "POST" then [201; 500]
  else if String.eqb method "GET" then [200; 404; 500]
  else if String.eqb method "DELETE" then [200; 404; 500]
  else [500].

(** What the handlers rely on from a delete of the record store: a lookup
    of the key of a delete that succeeded finds nothing. *)
Class DeleteContract : Prop := {
  get_after_delete :
    forall params t t',
      db_delete params t = (Normal tt, t') ->
      db_get {| get_TableName := delete_TableName params;
                get_Key := delete_Key params |} t'
      = Normal {| Item := None |};
}.
End Coverage.
End Coverage.

(** Further requests to run the handlers on. *)
Module Trials.
Import Ref Scenario.

Definition post_gadget : APIGatewayProxyEvent :=
  MkEvent "POST" None (Some (json "{'id':'p2','name':'Gadget','price':9.99}")).

(** A POST whose body is an array. *)
Definition post_array : APIGatewayProxyEvent :=
  MkEvent "POST" None (Some "[1, 2]").

(** A PUT without path parameters whose body has no id. *)
Definition put_anonymous : APIGatewayProxyEvent :=
  MkEvent "PUT" None (Some (json "{'name':'Gadget'}")).
Definition anonymous : JSValue := JObject [("name", JString "Gadget")].

(** A PUT whose body id is the number 2 and whose path id is the string 2. *)
Definition put_numeric : APIGatewayProxyEvent :=
  MkEvent "PUT" (Some [("id", "2")]) (Some (json "{'id':2,'name':'Gadget'}")).

(** What the body of [put_numeric] decodes to. *)
Definition numeric : JSValue :=
  JObject [("id", JNumber (S754_finite false 4503599627370496 (-51)));
           ("name", JString "Gadget")].

(** What the body of [post_array] decodes to. *)
Definition one_two : JSValue :=
  JArray [JNumber (S754_finite false 4503599627370496 (-52));
          JNumber (S754_finite false 4503599627370496 (-51))].

(** A POST with the name and price of [post_gadget], another id and one
    more attribute. *)
Definition post_red : APIGatewayProxyEvent :=
  MkEvent "POST" None
    (Some (json "{'price':9.99,'colour':'red','id':'p7','name':'Gadget'}")).
Definition red : JSValue :=
  JObject [("price", JNumber (S754_finite false 5623870034678907 (-49)));
           ("colour", JString "red");
           ("id", JString "p7");
           ("name", JString "Gadget")].

(** The table of [w0] once [put_p2] has been served. *)
Definition shelf_p2 : RefTable :=
  table_of [("p1", product "p1" "Widget");
            ("p2", put_Item (Contract.upsert_of gadget))].

(** The first id the reference generator gives in [w0]. *)
Definition first_uuid : string := "00000000-0000-4000-8000-0000000007e8".
Definition get_first_uuid : APIGatewayProxyEvent :=
  MkEvent "GET" (Some [("id", first_uuid)]) None.
End Trials.

(** ** Facts about values *)

Lemma strict_eq_js_of_id (v : JSValue) (id : option string) :
  strict_eq v (js_of_id id) = true -> v = js_of_id id.
Proof.
  destruct id as [s|]; destruct v; simpl; try discriminate; try reflexivity.
  intros Heq. apply String.eqb_eq in Heq. now subst.
Qed.

Lemma strict_eq_id_refl (id : option string) :
  strict_eq (js_of_id id) (js_of_id id) = true.
Proof. destruct id as [s|]; simpl; [apply String.eqb_refl | reflexivity]. Qed.

Lemma ForceError_test (id : option string) :
  strict_eq (js_of_id id) (JString "ForceError") = true <-> id = Some "ForceError".
Proof.
  destruct id as [s|]; simpl.
  - rewrite String.eqb_eq. split; congruence.
  - split; discriminate.
Qed.

Lemma GetV_product (parsed : JSValue) (key : string) :
  GetV (js_or parsed (JObject [])) key = Normal (Contract.product_field parsed key).
Proof.
  unfold Contract.product_field, js_or.
  destruct (ToBoolean parsed) eqn:Htruthy; [|reflexivity].
  destruct parsed; try discriminate; reflexivity.
Qed.

Lemma product_field_falsy (parsed : JSValue) (key : string) :
  ToBoolean parsed = false -> Contract.product_field parsed key = JUndefined.
Proof. unfold Contract.product_field, js_or. now intros ->. Qed.

(** ** Computations that differ in telemetry only *)

Section Agreement.
Context `{DocumentClient} `{UuidGen}.
Import Contract.
Local Open Scope js_scope.

Lemma same_store_refl (w : World) : same_store w w.
Proof. repeat split. Qed.

Lemma same_store_sym (w1 w2 : World) : same_store w1 w2 -> same_store w2 w1.
Proof. intros (Ht & He & Hc). repeat split; congruence. Qed.

Lemma same_store_trans (w1 w2 w3 : World) :
  same_store w1 w2 -> same_store w2 w3 -> same_store w1 w3.
Proof. intros (Ht & He & Hc) (Ht' & He' & Hc'). repeat split; congruence. Qed.

Lemma agree_sym {A : Type} (m1 m2 : M A) : agree m1 m2 -> agree m2 m1.
Proof.
  intros Hagree w1 w2 Hsame.
  destruct (Hagree w2 w1 (same_store_sym _ _ Hsame)) as [Hfst Hsnd].
  split; [congruence | now apply same_store_sym].
Qed.

Lemma agree_trans {A : Type} (m1 m2 m3 : M A) :
  agree m1 m2 -> agree m2 m3 -> agree m1 m3.
Proof.
  intros H12 H23 w1 w3 Hsame.
  destruct (H12 w1 w1 (same_store_refl w1)) as [Hfst Hsnd].
  destruct (H23 w1 w3 Hsame) as [Hfst' Hsnd'].
  split; [congruence | eapply same_store_trans; eassumption].
Qed.

Lemma agree_ret {A : Type} (a : A) : agree (ret a) (ret a).
Proof. intros w1 w2 Hsame. now split. Qed.

Lemma agree_throw {A : Type} (e : JSError) : agree (@throw _ _ A e) (throw e).
Proof. intros w1 w2 Hsame. now split. Qed.

Lemma agree_lift {A : Type} (c : Completion A) : agree (lift c) (lift c).
Proof. intros w1 w2 Hsame. now split. Qed.

Lemma agree_bind {A B : Type} (m1 m2 : M A) (k1 k2 : A -> M B) :
  agree m1 m2 -> (forall a, agree (k1 a) (k2 a)) ->
  agree (bind m1 k1) (bind m2 k2).
Proof.
  intros Hm Hk w1 w2 Hsame. unfold bind.
  destruct (Hm w1 w2 Hsame) as [Hfst Hsnd].
  destruct (m1 w1) as [[a1|e1] w1'], (m2 w2) as [[a2|e2] w2']; simpl in *;
    try discriminate.
  - injection Hfst as ->. now apply Hk.
  - injection Hfst as ->. split; [reflexivity | assumption].
Qed.

Lemma agree_try_catch {A : Type} (b1 b2 : M A) (h1 h2 : JSError -> M A) :
  agree b1 b2 -> (forall e, agree (h1 e) (h2 e)) ->
  agree (try_catch b1 h1) (try_catch b2 h2).
Proof.
  intros Hb Hh w1 w2 Hsame. unfold try_catch.
  destruct (Hb w1 w2 Hsame) as [Hfst Hsnd].
  destruct (b1 w1) as [[a1|e1] w1'], (b2 w2) as [[a2|e2] w2']; simpl in *;
    try discriminate.
  - split; assumption.
  - injection Hfst as ->. now apply Hh.
Qed.

Lemma agree_emit_l {A : Type} (t : Telemetry) (m1 m2 : M A) :
  agree m1 m2 -> agree (emit t ;; m1) m2.
Proof.
  intros Hm w1 w2 (Ht & He & Hc). unfold bind, emit. apply Hm. now repeat split.
Qed.

Lemma agree_emit_r {A : Type} (t : Telemetry) (m1 m2 : M A) :
  agree m1 m2 -> agree m1 (emit t ;; m2).
Proof. intros Hm. apply agree_sym, agree_emit_l, agree_sym, Hm. Qed.

Lemma agree_get (params : GetItemInput) :
  agree (dbClient_get params) (dbClient_get params).
Proof.
  intros w1 w2 (Ht & He & Hc). unfold dbClient_get, record_call. simpl.
  rewrite Ht, He, Hc. now repeat split.
Qed.

Lemma agree_scan (params : ScanInput) :
  agree (dbClient_scan params) (dbClient_scan params).
Proof.
  intros w1 w2 (Ht & He & Hc). unfold dbClient_scan, record_call. simpl.
  rewrite Ht, He, Hc. now repeat split.
Qed.

Lemma agree_put (params : PutItemInput) :
  agree (dbClient_put params) (dbClient_put params).
Proof.
  intros w1 w2 (Ht & He & Hc). unfold dbClient_put, record_call, set_table.
  rewrite Ht. destruct (db_put params (table w2)) as [c t']. simpl.
  rewrite He, Hc. now repeat split.
Qed.

Lemma agree_delete (params : DeleteItemInput) :
  agree (dbClient_delete params) (dbClient_delete params).
Proof.
  intros w1 w2 (Ht & He & Hc). unfold dbClient_delete, record_call, set_table.
  rewrite Ht. destruct (db_delete params (table w2)) as [c t']. simpl.
  rewrite He, Hc. now repeat split.
Qed.

Lemma agree_uuid : agree fresh_uuid fresh_uuid.
Proof.
  intros w1 w2 (Ht & He & Hc). unfold fresh_uuid.
  rewrite He. destruct (uuidv4 (entropy w2)) as [u g]. simpl.
  rewrite Ht, Hc. now repeat split.
Qed.
End Agreement.

(** ** The instrumented handler against the plain one *)

Section Instrumentation.
Context `{JSONGlobal} `{DocumentClient} `{UuidGen} `{ProcessEnv}.
Import Contract.
Local Open Scope js_scope.

Ltac unfold_telemetry :=
  unfold Plain.console_info, Plain.console_log, Plain.console_error,
    Powertools.logger_info, Powertools.logger_error, Powertools.metrics_addMetric,
    Powertools.dbClient_get, Powertools.dbClient_put, Powertools.dbClient_delete,
    Powertools.dbClient_scan, Powertools.traced.

Ltac agree_step :=
  first
    [ apply agree_ret | apply agree_throw | apply agree_lift
    | apply agree_get | apply agree_put | apply agree_delete | apply agree_scan
    | apply agree_uuid
    | apply agree_emit_l | apply agree_emit_r
    | apply agree_bind; [|intro]
    | apply agree_try_catch; [|intro]
    | match goal with
      | |- agree (if ?b then _ else _) (if ?b then _ else _) => destruct b
      | |- agree (match ?x with Some _ => _ | None => _ end)
                 (match ?x with Some _ => _ | None => _ end) => destruct x
      end ].

Ltac agree_auto := unfold_telemetry; repeat agree_step.

Lemma agree_internal_error (operation : string) (err : JSError) :
  agree (Plain.internal_error operation err) (Powertools.internal_error operation err).
Proof. unfold Plain.internal_error, Powertools.internal_error. agree_auto. Qed.

Lemma agree_processPutEvent (input : APIGatewayProxyEvent) :
  agree (Plain.processPutEvent input) (Powertools.processPutEvent input).
Proof.
  unfold Plain.processPutEvent, Powertools.processPutEvent,
    Plain.putEvent_try, Powertools.putEvent_try.
  agree_auto.
Qed.

Lemma agree_processPostEvent (input : APIGatewayProxyEvent) :
  agree (Plain.processPostEvent input) (Powertools.processPostEvent input).
Proof.
  unfold Plain.processPostEvent, Powertools.processPostEvent,
    Plain.postEvent_try, Powertools.postEvent_try.
  agree_auto.
Qed.

Lemma agree_processGetAllEvent :
  agree Plain.processGetAllEvent Powertools.processGetAllEvent.
Proof.
  unfold Plain.processGetAllEvent, Powertools.processGetAllEvent,
    Plain.getAllEvent_try, Powertools.getAllEvent_try.
  agree_auto.
Qed.

Lemma agree_processGetByIdEvent (input : APIGatewayProxyEvent) :
  agree (Plain.processGetByIdEvent input) (Powertools.processGetByIdEvent input).
Proof.
  unfold Plain.processGetByIdEvent, Powertools.processGetByIdEvent,
    Plain.getByIdEvent_try, Powertools.getByIdEvent_try.
  agree_auto.
Qed.

Lemma agree_processDeleteEvent (input : APIGatewayProxyEvent) :
  agree (Plain.processDeleteEvent input) (Powertools.processDeleteEvent input).
Proof.
  unfold Plain.processDeleteEvent, Powertools.processDeleteEvent,
    Plain.deleteEvent_try, Powertools.deleteEvent_try.
  agree_auto.
Qed.

Lemma agree_addResponseHeaders (response : APIGatewayProxyResult) :
  agree (Plain.addResponseHeaders response) (Powertools.addResponseHeaders response).
Proof. unfold Plain.addResponseHeaders, Powertools.addResponseHeaders. agree_auto. Qed.

Lemma agree_baseHandler (event : APIGatewayProxyEvent) :
  agree (Plain.handler event) (Powertools.baseHandler event).
Proof.
  unfold Plain.handler, Powertools.baseHandler.
  unfold_telemetry. apply agree_emit_l, agree_emit_r.
  repeat match goal with
         | |- agree (if ?b then _ else _) (if ?b then _ else _) => destruct b
         | |- agree (match ?x with Some _ => _ | None => _ end)
                    (match ?x with Some _ => _ | None => _ end) => destruct x
         end;
    try (apply agree_bind;
         [ first [ apply agree_processPutEvent | apply agree_processPostEvent
                 | apply agree_processGetAllEvent | apply agree_processGetByIdEvent
                 | apply agree_processDeleteEvent ]
         | intro; apply agree_addResponseHeaders ]).
  apply agree_emit_l, agree_emit_r, agree_addResponseHeaders.
Qed.

(** A computation that only writes telemetry can be put in front. *)
Lemma agree_skip_r {A : Type} (s : M unit) (m1 m2 : M A) :
  agree (ret tt) s -> agree m1 m2 -> agree m1 (s ;; m2).
Proof.
  intros Hs Hm w1 w2 Hsame. unfold bind.
  destruct (Hs w1 w2 Hsame) as [Hfst Hsnd]. unfold ret in Hfst, Hsnd. simpl in *.
  destruct (s w2) as [[[]|e] w2']; simpl in *; [|discriminate].
  now apply Hm.
Qed.

(** ... and behind, when it leaves the result as it is. *)
Lemma agree_after_r {A : Type} (s : A -> M unit) (m1 m2 : M A) :
  (forall a, agree (ret tt) (s a)) -> agree m1 m2 ->
  agree m1 (let* a := m2 in s a ;; ret a).
Proof.
  intros Hs Hm w1 w2 Hsame. unfold bind.
  destruct (Hm w1 w2 Hsame) as [Hfst Hsnd].
  destruct (m2 w2) as [[a|e] w2']; simpl in *; [|split; assumption].
  destruct (Hs a (snd (m1 w1)) w2' Hsnd) as [Hfst' Hsnd'].
  unfold ret in Hfst', Hsnd'. simpl in *.
  destruct (s a w2') as [[[]|e] w2'']; simpl in *; [|discriminate].
  split; assumption.
Qed.

Lemma agree_handler (event : APIGatewayProxyEvent) :
  agree (Plain.handler event) (Powertools.handler event).
Proof.
  unfold Powertools.handler, Powertools.middy.
  apply agree_skip_r; [|apply agree_after_r; [intro r|]].
  - cbn. repeat apply agree_emit_r. apply agree_ret.
  - cbn. repeat apply agree_emit_r. apply agree_ret.
  - apply agree_baseHandler.
Qed.

(** The plain handler does not read the telemetry. *)
Lemma handler_blind (event : APIGatewayProxyEvent) :
  agree (Plain.handler event) (Plain.handler event).
Proof.
  eapply agree_trans; [apply agree_handler | apply agree_sym, agree_handler].
Qed.
End Instrumentation.

(** ** The handler of [src/products/app.ts] against its contract *)

Section PlainFacts.
Context `{JSONGlobal} `{DocumentClient} `{UuidGen} `{ProcessEnv}.
Import Contract.
Local Open Scope js_scope.

(** *** Routing *)

Lemma handler_PUT (event : APIGatewayProxyEvent) :
  httpMethod event = "PUT" ->
  Plain.handler event = dispatched event (Plain.processPutEvent event).
Proof. intros Hm. unfold Plain.handler, dispatched. now rewrite Hm. Qed.

Lemma handler_POST (event : APIGatewayProxyEvent) :
  httpMethod event = "POST" ->
  Plain.handler event = dispatched event (Plain.processPostEvent event).
Proof. intros Hm. unfold Plain.handler, dispatched. now rewrite Hm. Qed.

Lemma handler_GET_all (event : APIGatewayProxyEvent) :
  httpMethod event = "GET" -> pathParameters event = None ->
  Plain.handler event = dispatched event Plain.processGetAllEvent.
Proof. intros Hm Hp. unfold Plain.handler, dispatched. now rewrite Hm, Hp. Qed.

Lemma handler_GET_one (event : APIGatewayProxyEvent) (params : list (string * string)) :
  httpMethod event = "GET" -> pathParameters event = Some params ->
  Plain.handler event = dispatched event (Plain.processGetByIdEvent event).
Proof. intros Hm Hp. unfold Plain.handler, dispatched. now rewrite Hm, Hp. Qed.

Lemma handler_DELETE (event : APIGatewayProxyEvent) :
  httpMethod event = "DELETE" ->
  Plain.handler event = dispatched event (Plain.processDeleteEvent event).
Proof. intros Hm. unfold Plain.handler, dispatched. now rewrite Hm. Qed.

Lemma handler_other (event : APIGatewayProxyEvent) :
  httpMethod event <> "PUT" -> httpMethod event <> "POST" ->
  httpMethod event <> "GET" -> httpMethod event <> "DELETE" ->
  Plain.handler event = dispatched event generic_failure.
Proof.
  intros Hput Hpost Hget Hdelete. unfold Plain.handler, dispatched, generic_failure.
  apply String.eqb_neq in Hput, Hpost, Hget, Hdelete.
  now rewrite Hput, Hpost, Hget, Hdelete.
Qed.

Lemma generic_failure_response (event : APIGatewayProxyEvent) (w : World) :
  exists w',
    dispatched event generic_failure w
    = (Normal (response 500 (message_payload "some error happened")), w')
    /\ untouched w w'.
Proof. eexists. split; [reflexivity|]. now repeat split. Qed.

(** C1 (amended).  The dispatcher routes by the method: PUT to Upsert,
    POST to Create, DELETE to Delete, and GET to ListFirstPage when the
    event has no path-parameter object ([pathParameters] is [null]) and to
    GetById when it has one, whether or not that object holds [id]; any
    other method gives status 500 with body
    [{"message": "some error happened"}] and touches no store.  For GET
    events whose path-parameter object is absent or holds [id], the choice
    between ListFirstPage and GetById is decided exactly by the presence
    of [id]. *)
Theorem handler_routing (event : APIGatewayProxyEvent) :
  (httpMethod event = "PUT" ->
   Plain.handler event = dispatched event (Plain.processPutEvent event))
  /\ (httpMethod event = "POST" ->
      Plain.handler event = dispatched event (Plain.processPostEvent event))
  /\ (httpMethod event = "GET" -> pathParameters event = None ->
      Plain.handler event = dispatched event Plain.processGetAllEvent)
  /\ (httpMethod event = "GET" -> pathParameters event <> None ->
      Plain.handler event = dispatched event (Plain.processGetByIdEvent event))
  /\ (httpMethod event = "DELETE" ->
      Plain.handler event = dispatched event (Plain.processDeleteEvent event))
  /\ (httpMethod event <> "PUT" -> httpMethod event <> "POST" ->
      httpMethod event <> "GET" -> httpMethod event <> "DELETE" ->
      forall w, exists w',
        Plain.handler event w
        = (Normal (response 500 (message_payload "some error happened")), w')
        /\ untouched w w')
  /\ (httpMethod event = "GET" ->
      pathParameters event = None \/ pathParameters_id event <> None ->
      (pathParameters_id event = None ->
       Plain.handler event = dispatched event Plain.processGetAllEvent)
      /\ (pathParameters_id event <> None ->
          Plain.handler event = dispatched event (Plain.processGetByIdEvent event))).
Proof.
  repeat apply conj.
  - apply handler_PUT.
  - apply handler_POST.
  - apply handler_GET_all.
  - intros Hm Hp. destruct (pathParameters event) as [params|] eqn:Hparams;
      [|contradiction]. eapply handler_GET_one; eassumption.
  - apply handler_DELETE.
  - intros Hput Hpost Hget Hdelete w.
    rewrite handler_other by assumption. apply generic_failure_response.
  - intros Hm Hshape. split.
    + intros Hid. destruct Hshape as [Hnone|Hsome]; [|contradiction].
      now apply handler_GET_all.
    + intros Hid. unfold pathParameters_id in Hid.
      destruct (pathParameters event) as [params|] eqn:Hparams; [|contradiction].
      eapply handler_GET_one; eassumption.
Qed.

(** *** Upsert and Create: decoding the body *)

Ltac run_handler :=
  unfold dispatched, Plain.processPutEvent, Plain.putEvent_try,
    Plain.processPostEvent, Plain.postEvent_try,
    Plain.processGetAllEvent, Plain.getAllEvent_try,
    Plain.processGetByIdEvent, Plain.getByIdEvent_try,
    Plain.processDeleteEvent, Plain.deleteEvent_try,
    Plain.internal_error, Plain.addResponseHeaders,
    Plain.console_info, Plain.console_log, Plain.console_error,
    bind, ret, lift, throw, try_catch, emit,
    dbClient_get, dbClient_put, dbClient_delete, dbClient_scan, fresh_uuid,
    record_call, set_table.

(** C2.  A PUT whose body decodes to a product whose id is not the path id
    is answered 400 with body
    [{"error": "Product ID in the body does not match path parameter"}];
    no call is issued to the store and its state is unchanged, so every
    later request (a GetById that would have returned 404 among them) is
    answered as it would have been before. *)
Theorem upsert_id_mismatch (event : APIGatewayProxyEvent) (w : World)
    (parsed : JSValue) :
  httpMethod event = "PUT" ->
  JSON_parse (body_or_empty event) = Normal parsed ->
  strict_eq (product_field parsed "id") (js_of_id (pathParameters_id event)) = false ->
  exists w',
    Plain.handler event w
    = (Normal (response 400
                 (error_payload "Product ID in the body does not match path parameter")),
       w')
    /\ untouched w w'
    /\ forall probe, fst (Plain.handler probe w') = fst (Plain.handler probe w).
Proof.
  intros Hmethod Hparse Hdiffer.
  rewrite (handler_PUT event Hmethod). run_handler. cbn.
  rewrite Hparse, GetV_product, Hdiffer. cbn.
  eexists. split; [reflexivity|]. split; [now repeat split|].
  intros probe. apply handler_blind. now repeat split.
Qed.

(** C3 (amended).  A PUT or POST whose raw body fails to parse as JSON
    takes the fault path: status 500 with body
    [{"error": "Internal Server Error for Put :: <message>"}] (or [Post]),
    and no call to the store; what is parsed is [input.body || '']. The
    empty object stands in for the product only when the body parses to a
    falsy value: then a PUT with a path id reaches the id check and is
    answered 400, and a POST reaches the store write, with neither a name
    nor a price. *)
Theorem body_decode (event : APIGatewayProxyEvent) (w : World) :
  (forall e,
      JSON_parse (body_or_empty event) = Throw e ->
      (httpMethod event = "PUT" ->
       exists w',
         Plain.handler event w
         = (Normal (response 500
                      (error_payload ("Internal Server Error for Put :: " +:+ message e))),
            w')
         /\ untouched w w')
      /\ (httpMethod event = "POST" ->
          exists w',
            Plain.handler event w
            = (Normal (response 500
                         (error_payload
                            ("Internal Server Error for Post :: " +:+ message e))),
               w')
            /\ untouched w w'))
  /\ (forall parsed,
        JSON_parse (body_or_empty event) = Normal parsed ->
        ToBoolean parsed = false ->
        js_or parsed (JObject []) = JObject []
        /\ (httpMethod event = "PUT" -> pathParameters_id event <> None ->
            exists w',
              Plain.handler event w
              = (Normal (response 400
                           (error_payload
                              "Product ID in the body does not match path parameter")),
                 w')
              /\ untouched w w')
        /\ (httpMethod event = "POST" ->
            exists r w',
              Plain.handler event w = (Normal r, w')
              /\ calls w'
                 = (calls w
                    ++ [CallPut
                          {| put_TableName := Plain.dynamoDBTableName;
                             put_Item := [("PK", JString (fst (uuidv4 (entropy w))));
                                          ("name", JUndefined);
                                          ("price", JUndefined)] |}])%list)).
Proof.
  split.
  - intros e Hparse. split; intros Hmethod.
    + rewrite (handler_PUT event Hmethod). run_handler. cbn. rewrite Hparse. cbn.
      eexists. split; [reflexivity | now repeat split].
    + rewrite (handler_POST event Hmethod). run_handler. cbn. rewrite Hparse. cbn.
      eexists. split; [reflexivity | now repeat split].
  - intros parsed Hparse Hfalsy. split; [unfold js_or; now rewrite Hfalsy|]. split.
    + intros Hmethod Hid.
      rewrite (handler_PUT event Hmethod). run_handler. cbn.
      rewrite Hparse, GetV_product, (product_field_falsy _ _ Hfalsy).
      destruct (pathParameters_id event) as [id|]; [|contradiction]. cbn.
      eexists. split; [reflexivity | now repeat split].
    + intros Hmethod.
      rewrite (handler_POST event Hmethod). run_handler. cbn. rewrite Hparse. cbn.
      destruct (uuidv4 (entropy w)) as [u g]. cbn.
      rewrite !GetV_product, !(product_field_falsy _ _ Hfalsy). cbn.
      destruct (db_put _ (table w)) as [[[]|e] t']; cbn;
        eexists; eexists; (split; [reflexivity | reflexivity]).
Qed.

(** *** GetById and Delete *)

(** C5.  A GET whose [id] path parameter is the string ["ForceError"] is
    answered 500 with body
    [{"error": "Internal Server Error for GetById :: BOOM"}], whatever the
    store holds and without any call to it. *)
Theorem getById_ForceError (event : APIGatewayProxyEvent) (w : World)
    (params : list (string * string)) :
  httpMethod event = "GET" ->
  pathParameters event = Some params ->
  lookup_prop "id" params = Some "ForceError" ->
  exists w',
    Plain.handler event w
    = (Normal (response 500
                 (error_payload "Internal Server Error for GetById :: BOOM")), w')
    /\ untouched w w'.
Proof.
  intros Hmethod Hparams Hid.
  rewrite (handler_GET_one event params Hmethod Hparams). run_handler.
  unfold pathParameters_id. rewrite Hparams, Hid. cbn.
  eexists. split; [reflexivity | now repeat split].
Qed.

(** C4.  A DELETE whose id the store does not hold is answered 404 with
    body [{"error": "Product with id = <id> was deleted"}]; the lookup is
    the only call issued to the store, no delete follows it, and the table
    is unchanged.  The text is the one of a successful deletion, which is
    answered 200 with body [{"message": "Product with id = <id> was deleted"}]. *)
Theorem delete_absent (event : APIGatewayProxyEvent) (w : World) :
  httpMethod event = "DELETE" ->
  let id := pathParameters_id event in
  (db_get (get_by id) (table w) = Normal {| Item := None |} ->
   exists w',
     Plain.handler event w
     = (Normal (response 404 (error_payload (deleted_message id))), w')
     /\ table w' = table w
     /\ calls w' = (calls w ++ [CallGet (get_by id)])%list)
  /\ (forall item t',
        db_get (get_by id) (table w) = Normal {| Item := Some item |} ->
        db_delete (delete_by id) (table w) = (Normal tt, t') ->
        exists w',
          Plain.handler event w
          = (Normal (response 200 (message_payload (deleted_message id))), w')
          /\ table w' = t'
          /\ calls w' = (calls w ++ [CallGet (get_by id); CallDelete (delete_by id)])%list).
Proof.
  intros Hmethod id. split.
  - intros Hget. rewrite (handler_DELETE event Hmethod). run_handler. cbn.
    fold id. unfold get_by in Hget. rewrite Hget. cbn.
    eexists. split; [reflexivity | now repeat split].
  - intros item t' Hget Hdelete. rewrite (handler_DELETE event Hmethod).
    run_handler. cbn. fold id. unfold get_by in Hget. rewrite Hget. cbn.
    unfold delete_by in Hdelete. rewrite Hdelete. cbn.
    eexists. split; [reflexivity|]. split; [reflexivity|].
    now rewrite <- app_assoc.
Qed.

(** *** Faults and finalization *)

Lemma guarded_catches (operation entry : string) (block : M APIGatewayProxyResult) :
  catches operation entry block
    (Plain.console_info entry ;; try_catch block (Plain.internal_error operation)).
Proof.
  intros w. run_handler. cbn. split.
  - destruct (block _) as [[r|e] w1]; cbn; eauto.
  - intros e w1 Hblock. rewrite Hblock. cbn.
    eexists. split; [reflexivity | now repeat split].
Qed.

Lemma dispatched_total (event : APIGatewayProxyEvent)
    (operation : M APIGatewayProxyResult) :
  (forall w, exists r w', operation w = (Normal r, w')) ->
  forall w, exists r w', dispatched event operation w = (Normal (finalized r), w').
Proof.
  intros Htotal w. unfold dispatched, bind, emit.
  match goal with |- context [operation ?w0] => destruct (Htotal w0) as (r & w1 & Hrun) end.
  rewrite Hrun. exists r. eexists. reflexivity.
Qed.

Lemma handler_total (event : APIGatewayProxyEvent) (w : World) :
  exists r w', Plain.handler event w = (Normal (finalized r), w').
Proof.
  destruct (String.eqb_spec (httpMethod event) "PUT") as [Hput|Hput].
  { rewrite (handler_PUT event Hput). apply dispatched_total.
    intros w0. apply (guarded_catches "Put"). }
  destruct (String.eqb_spec (httpMethod event) "POST") as [Hpost|Hpost].
  { rewrite (handler_POST event Hpost). apply dispatched_total.
    intros w0. apply (guarded_catches "Post"). }
  destruct (String.eqb_spec (httpMethod event) "GET") as [Hget|Hget].
  { destruct (pathParameters event) as [params|] eqn:Hparams.
    - rewrite (handler_GET_one event params Hget Hparams). apply dispatched_total.
      intros w0. apply (guarded_catches "GetById").
    - rewrite (handler_GET_all event Hget Hparams). apply dispatched_total.
      intros w0. apply (guarded_catches "GetAll"). }
  destruct (String.eqb_spec (httpMethod event) "DELETE") as [Hdelete|Hdelete].
  { rewrite (handler_DELETE event Hdelete). apply dispatched_total.
    intros w0. apply (guarded_catches "Delete"). }
  rewrite (handler_other event Hput Hpost Hget Hdelete). apply dispatched_total.
  intros w0. eexists. eexists. reflexivity.
Qed.

(** C7.  Every response the dispatcher returns carries exactly the two
    headers [Content-Type: application/json] and
    [X-Custom-Header: application/json]: the dispatcher returns a response
    for every event and every world, and the finalization step, which
    cannot fail, assigns these headers whatever headers the response had,
    leaving status and body as they are. *)
Theorem fixed_headers :
  (forall event w,
      exists r w',
        Plain.handler event w = (Normal r, w')
        /\ headers r = Some [("Content-Type", "application/json");
                             ("X-Custom-Header", "application/json")])
  /\ (forall r w,
        exists w',
          Plain.addResponseHeaders r w
          = (Normal {| statusCode := statusCode r;
                       result_body := result_body r;
                       headers := Some [("Content-Type", "application/json");
                                        ("X-Custom-Header", "application/json")] |},
             w')
          /\ untouched w w').
Proof.
  split.
  - intros event w. destruct (handler_total event w) as (r & w' & Hrun).
    exists (finalized r), w'. now split.
  - intros r w. eexists. split; [reflexivity | now repeat split].
Qed.

(** A fault of the store, whichever call raises it, is answered 500 by the
    handler that issued the call. *)
Lemma put_fault (event : APIGatewayProxyEvent) (w : World) (parsed : JSValue)
    (e : JSError) (t' : Table) :
  httpMethod event = "PUT" ->
  JSON_parse (body_or_empty event) = Normal parsed ->
  strict_eq (product_field parsed "id") (js_of_id (pathParameters_id event)) = true ->
  db_put (upsert_of parsed) (table w) = (Throw e, t') ->
  exists w',
    Plain.handler event w
    = (Normal (response 500
                 (error_payload ("Internal Server Error for Put :: " +:+ message e))),
       w')
    /\ table w' = t'.
Proof.
  intros Hmethod Hparse Hsame Hput.
  rewrite (handler_PUT event Hmethod). run_handler. cbn.
  rewrite Hparse, !GetV_product, Hsame. cbn.
  unfold upsert_of in Hput. rewrite Hput. cbn.
  eexists. split; reflexivity.
Qed.

Lemma post_fault (event : APIGatewayProxyEvent) (w : World) (parsed : JSValue)
    (e : JSError) (t' : Table) :
  httpMethod event = "POST" ->
  JSON_parse (body_or_empty event) = Normal parsed ->
  db_put {| put_TableName := Plain.dynamoDBTableName;
            put_Item := [("PK", JString (fst (uuidv4 (entropy w))));
                         ("name", product_field parsed "name");
                         ("price", product_field parsed "price")] |}
    (table w) = (Throw e, t') ->
  exists w',
    Plain.handler event w
    = (Normal (response 500
                 (error_payload ("Internal Server Error for Post :: " +:+ message e))),
       w')
    /\ table w' = t'.
Proof.
  intros Hmethod Hparse Hput.
  rewrite (handler_POST event Hmethod). run_handler. cbn. rewrite Hparse. cbn.
  destruct (uuidv4 (entropy w)) as [u g]. cbn in *.
  rewrite !GetV_product. cbn. rewrite Hput. cbn.
  eexists. split; reflexivity.
Qed.

Lemma scan_fault (event : APIGatewayProxyEvent) (w : World) (e : JSError) :
  httpMethod event = "GET" ->
  pathParameters event = None ->
  db_scan first_page (table w) = Throw e ->
  exists w',
    Plain.handler event w
    = (Normal (response 500
                 (error_payload ("Internal Server Error for GetAll :: " +:+ message e))),
       w')
    /\ table w' = table w.
Proof.
  intros Hmethod Hparams Hscan.
  rewrite (handler_GET_all event Hmethod Hparams). run_handler. cbn.
  unfold first_page in Hscan. rewrite Hscan. cbn.
  eexists. split; reflexivity.
Qed.

Lemma get_fault (event : APIGatewayProxyEvent) (w : World) (e : JSError) :
  httpMethod event = "GET" ->
  pathParameters event <> None ->
  pathParameters_id event <> Some "ForceError" ->
  db_get (get_by (pathParameters_id event)) (table w) = Throw e ->
  exists w',
    Plain.handler event w
    = (Normal (response 500
                 (error_payload ("Internal Server Error for GetById :: " +:+ message e))),
       w')
    /\ table w' = table w.
Proof.
  intros Hmethod Hparams Hsentinel Hget.
  destruct (pathParameters event) as [params|] eqn:Hpp; [|contradiction].
  rewrite (handler_GET_one event params Hmethod Hpp). run_handler. cbn.
  destruct (strict_eq (js_of_id (pathParameters_id event)) (JString "ForceError"))
    eqn:Hforce.
  { apply ForceError_test in Hforce. contradiction. }
  cbn. unfold get_by in Hget. rewrite Hget. cbn.
  eexists. split; reflexivity.
Qed.

Lemma delete_fault (event : APIGatewayProxyEvent) (w : World) (e : JSError) :
  httpMethod event = "DELETE" ->
  let id := pathParameters_id event in
  (db_get (get_by id) (table w) = Throw e ->
   exists w',
     Plain.handler event w
     = (Normal (response 500
                  (error_payload ("Internal Server Error for Delete :: " +:+ message e))),
        w')
     /\ table w' = table w)
  /\ (forall item t',
        db_get (get_by id) (table w) = Normal {| Item := Some item |} ->
        db_delete (delete_by id) (table w) = (Throw e, t') ->
        exists w',
          Plain.handler event w
          = (Normal (response 500
                       (error_payload
                          ("Internal Server Error for Delete :: " +:+ message e))),
             w')
          /\ table w' = t').
Proof.
  intros Hmethod id. split.
  - intros Hget. rewrite (handler_DELETE event Hmethod). run_handler. cbn.
    fold id. unfold get_by in Hget. rewrite Hget. cbn.
    eexists. split; reflexivity.
  - intros item t' Hget Hdelete. rewrite (handler_DELETE event Hmethod).
    run_handler. cbn. fold id. unfold get_by in Hget. rewrite Hget. cbn.
    unfold delete_by in Hdelete. rewrite Hdelete. cbn.
    eexists. split; reflexivity.
Qed.

(** C9.  The dispatcher returns a response for every event and every
    world: it never throws.  Each of the five operation handlers returns a
    response in every world, and whenever its guarded block throws (a
    fault of the store, of the body decoding, or the injected one) it
    returns status 500 with body
    [{"error": "Internal Server Error for <operation> :: <message>"}]; so
    does the dispatcher for a fault of the scan and of the lookup of
    GetById. *)
Theorem faults_are_caught (event : APIGatewayProxyEvent) :
  (forall w, exists r w', Plain.handler event w = (Normal r, w'))
  /\ catches "Put" "Processing Put Event"
       (Plain.putEvent_try event) (Plain.processPutEvent event)
  /\ catches "Post" "Processing Post Event"
       (Plain.postEvent_try event) (Plain.processPostEvent event)
  /\ catches "GetAll" "Processing Get All Event"
       Plain.getAllEvent_try Plain.processGetAllEvent
  /\ catches "GetById" "Processing Get By Id Event"
       (Plain.getByIdEvent_try event) (Plain.processGetByIdEvent event)
  /\ catches "Delete" "Processing Delete Event"
       (Plain.deleteEvent_try event) (Plain.processDeleteEvent event)
  /\ (forall w e,
        httpMethod event = "GET" -> pathParameters event = None ->
        db_scan first_page (table w) = Throw e ->
        exists w',
          Plain.handler event w
          = (Normal (response 500
                       (error_payload
                          ("Internal Server Error for GetAll :: " +:+ message e))),
             w'))
  /\ (forall w e,
        httpMethod event = "GET" -> pathParameters event <> None ->
        pathParameters_id event <> Some "ForceError" ->
        db_get (get_by (pathParameters_id event)) (table w) = Throw e ->
        exists w',
          Plain.handler event w
          = (Normal (response 500
                       (error_payload
                          ("Internal Server Error for GetById :: " +:+ message e))),
             w')).
Proof.
  split; [|repeat split; try apply guarded_catches].
  - intros w. destruct (handler_total event w) as (r & w' & Hrun). eauto.
  - intros w e Hmethod Hparams Hscan.
    destruct (scan_fault event w e Hmethod Hparams Hscan) as (w' & Hrun & _). eauto.
  - intros w e Hmethod Hparams Hsentinel Hget.
    destruct (get_fault event w e Hmethod Hparams Hsentinel Hget) as (w' & Hrun & _).
    eauto.
Qed.

(** *** With a store that keeps its contract *)

Section WithStoreContract.
Context {contract : StoreContract}.

(** C6.  A GET without path parameters whose scan succeeds is answered
    200 with the JSON array of the first 20 records of the table, as
    they are stored: at most 20 records, whatever the table holds, the
    records beyond the twentieth being left out.  The scan, with
    [Limit: 20], is the only call issued to the store. *)
Theorem listFirstPage_capped (event : APIGatewayProxyEvent) (w : World)
    (out : ScanOutput) :
  httpMethod event = "GET" ->
  pathParameters event = None ->
  db_scan first_page (table w) = Normal out ->
  exists w',
    Plain.handler event w
    = (Normal (response 200 (JArray (map JObject (take 20 (records (table w)))))), w')
    /\ (length (take 20 (records (table w))) <= 20)%nat
    /\ table w' = table w
    /\ calls w' = (calls w ++ [CallScan first_page])%list.
Proof.
  intros Hmethod Hparams Hscan.
  rewrite (handler_GET_all event Hmethod Hparams). run_handler. cbn.
  pose proof (scan_first _ _ _ Hscan) as Hitems.
  unfold first_page in Hscan. rewrite Hscan. cbn. rewrite Hitems. cbn.
  eexists. split; [reflexivity|]. split; [|now split].
  rewrite length_take. apply Nat.le_min_l.
Qed.

(** C8 (amended).  After a PUT whose body id equals the path id, other
    than the sentinel ["ForceError"], and whose store write succeeds, a
    GetById on that id is answered 200 with the record the PUT wrote:
    the key and the name and price of the body, nothing else. *)
Theorem upsert_then_getById (event probe : APIGatewayProxyEvent) (w : World)
    (parsed : JSValue) (t' : Table) (params : list (string * string)) :
  let id := pathParameters_id event in
  httpMethod event = "PUT" ->
  JSON_parse (body_or_empty event) = Normal parsed ->
  strict_eq (product_field parsed "id") (js_of_id id) = true ->
  db_put (upsert_of parsed) (table w) = (Normal tt, t') ->
  id <> Some "ForceError" ->
  httpMethod probe = "GET" ->
  pathParameters probe = Some params ->
  lookup_prop "id" params = id ->
  exists w1 w2,
    Plain.handler event w
    = (Normal (response 201
                 (message_payload
                    ("Product with id = " +:+ template_id id +:+ " edited(created)"))),
       w1)
    /\ table w1 = t'
    /\ Plain.handler probe w1
       = (Normal (response 200
                    (JObject [("PK", js_of_id id);
                              ("name", product_field parsed "name");
                              ("price", product_field parsed "price")])),
          w2).
Proof.
  intros id Hmethod Hparse Hsame Hput Hsentinel Hprobe Hparams Hid.
  pose proof (get_after_put _ _ _ (product_field parsed "id") Hput eq_refl) as Hget.
  pose proof (strict_eq_js_of_id _ _ Hsame) as Hkey.
  rewrite (handler_PUT event Hmethod).
  rewrite (handler_GET_one probe params Hprobe Hparams).
  run_handler. cbn. fold id.
  rewrite Hparse, !GetV_product, Hsame. cbn.
  unfold upsert_of in Hput. rewrite Hput. cbn.
  eexists. eexists. split; [reflexivity|]. split; [reflexivity|].
  unfold pathParameters_id. rewrite Hparams, Hid.
  destruct (strict_eq (js_of_id id) (JString "ForceError")) eqn:Hforce.
  { apply ForceError_test in Hforce. contradiction. }
  cbn. unfold upsert_of in Hget. cbn in Hget. rewrite Hkey in Hget.
  rewrite Hget. cbn. rewrite Hkey. reflexivity.
Qed.
End WithStoreContract.
End PlainFacts.

(** ** Plain and instrumented *)

Section Equivalence.
Context `{JSONGlobal} `{DocumentClient} `{UuidGen} `{ProcessEnv}.
Import Contract.

(** C10.  For every event and every world, the plain handler and the
    instrumented one return the same response (status, body and headers)
    and leave the same store: same table, same calls issued, same entropy
    consumed.  They differ in the telemetry they write. *)
Theorem instrumentation_keeps_response (event : APIGatewayProxyEvent) (w : World) :
  exists r w1 w2,
    Plain.handler event w = (Normal r, w1)
    /\ Powertools.handler event w = (Normal r, w2)
    /\ same_store w1 w2.
Proof.
  destruct (handler_total event w) as (r & w1 & Hplain).
  destruct (agree_handler event w w (same_store_refl w)) as [Hfst Hsnd].
  rewrite Hplain in Hfst, Hsnd. simpl in Hfst, Hsnd.
  destruct (Powertools.handler event w) as [c w2]. simpl in Hfst, Hsnd. subst c.
  now exists (finalized r), w1, w2.
Qed.
End Equivalence.

(** ** The reference store keeps the contract *)

Lemma ref_scan_first (params : ScanInput) (t : Ref.RefTable) (out : ScanOutput) :
  Ref.ref_scan params t = Normal out ->
  Items out = take (Z.to_nat (scan_Limit params)) (Scenario.ref_records t).
Proof.
  unfold Ref.ref_scan, Scenario.ref_records.
  destruct (negb (Ref.online t)); [discriminate|].
  destruct (scan_Limit params <=? 0); [discriminate|].
  now intros [= <-].
Qed.

Lemma ref_get_after_put (params : PutItemInput) (t t' : Ref.RefTable) (key : JSValue) :
  Ref.ref_put params t = (Normal tt, t') ->
  lookup_prop "PK" (put_Item params) = Some key ->
  Ref.ref_get {| get_TableName := put_TableName params; get_Key := [("PK", key)] |} t'
  = Normal {| Item := Some (put_Item params) |}.
Proof.
  unfold Ref.ref_put, Ref.ref_get, Ref.item_key.
  destruct (negb (Ref.online t)) eqn:Honline; [discriminate|].
  intros Hput Hkey. rewrite Hkey in Hput.
  destruct key as [| | | |k| |]; try discriminate.
  injection Hput as <-. simpl. rewrite Honline. simpl.
  now rewrite lookup_insert_eq.
Qed.

Lemma ref_contract : @Contract.StoreContract Ref.ref_store.
Proof.
  exact (@Contract.Build_StoreContract Ref.ref_store Scenario.ref_records
           ref_scan_first ref_get_after_put).
Defined.

(** ** The theorems at work on the reference instances *)

Section Runs.
Import Ref Contract Scenario.

(** C1 as the specification words it: a GET event that has a path-parameter
    object without [id] carries no id path parameter, yet it is not routed
    to ListFirstPage: GetById runs, and looks up the key [undefined]. *)
Lemma routing_by_id_counterexample :
  httpMethod get_productId = "GET"
  /\ pathParameters_id get_productId = None
  /\ Plain.handler get_productId w0 <> dispatched get_productId Plain.processGetAllEvent w0
  /\ Plain.handler get_productId w0
     = dispatched get_productId (Plain.processGetByIdEvent get_productId) w0
  /\ calls (snd (Plain.handler get_productId w0))
     = [CallGet {| get_TableName := "products"; get_Key := [("PK", JUndefined)] |}].
Proof.
  split; [reflexivity|]. split; [reflexivity|]. split; [|split; reflexivity].
  intros Heq. apply (f_equal (fun run => calls (snd run))) in Heq.
  vm_compute in Heq. discriminate.
Qed.

Lemma handler_routing_witness :
  Plain.handler put_p2 = dispatched put_p2 (Plain.processPutEvent put_p2)
  /\ Plain.handler get_all = dispatched get_all Plain.processGetAllEvent
  /\ Plain.handler get_productId
     = dispatched get_productId (Plain.processGetByIdEvent get_productId)
  /\ (exists w',
        Plain.handler patch_p1 w0
        = (Normal (response 500 (message_payload "some error happened")), w')
        /\ untouched w0 w').
Proof.
  split; [|split; [|split]].
  - apply (proj1 (handler_routing put_p2)). reflexivity.
  - apply (proj1 (proj2 (proj2 (handler_routing get_all)))); reflexivity.
  - apply (proj1 (proj2 (proj2 (proj2 (handler_routing get_productId)))));
      [reflexivity | discriminate].
  - apply (proj1 (proj2 (proj2 (proj2 (proj2 (proj2 (handler_routing patch_p1)))))));
      discriminate.
Defined.

Lemma upsert_id_mismatch_witness :
  httpMethod put_mismatch = "PUT"
  /\ JSON_parse (body_or_empty put_mismatch) = Normal mismatched
  /\ strict_eq (product_field mismatched "id")
       (js_of_id (pathParameters_id put_mismatch)) = false
  /\ exists w',
       Plain.handler put_mismatch w0
       = (Normal (response 400
                    (error_payload "Product ID in the body does not match path parameter")),
          w')
       /\ untouched w0 w'
       /\ forall probe, fst (Plain.handler probe w') = fst (Plain.handler probe w0).
Proof.
  assert (Hparse : JSON_parse (body_or_empty put_mismatch) = Normal mismatched)
    by (vm_compute; reflexivity).
  split; [reflexivity|]. split; [exact Hparse|]. split; [reflexivity|].
  apply (@upsert_id_mismatch ref_JSON ref_store ref_uuid ref_env
           put_mismatch w0 mismatched eq_refl Hparse eq_refl).
Defined.

(** C3 as the specification words it: a PUT whose body is cut short and a
    POST without a body do not parse; neither request goes on with an empty
    product (the PUT to the answer 400 of the id check, the POST to a store
    write): both are answered 500 and no call reaches the store. *)
Lemma unparsable_body_counterexample :
  JSON_parse (body_or_empty put_truncated)
  = Throw (SyntaxError "Unexpected end of JSON input")
  /\ JSON_parse (body_or_empty post_no_body)
     = Throw (SyntaxError "Unexpected end of JSON input")
  /\ fst (Plain.handler put_truncated w0)
     = Normal (response 500
                 (error_payload
                    "Internal Server Error for Put :: Unexpected end of JSON input"))
  /\ calls (snd (Plain.handler put_truncated w0)) = []
  /\ fst (Plain.handler post_no_body w0)
     = Normal (response 500
                 (error_payload
                    "Internal Server Error for Post :: Unexpected end of JSON input"))
  /\ calls (snd (Plain.handler post_no_body w0)) = [].
Proof. repeat split; vm_compute; reflexivity. Qed.

Lemma body_decode_witness :
  JSON_parse (body_or_empty put_truncated)
  = Throw (SyntaxError "Unexpected end of JSON input")
  /\ JSON_parse (body_or_empty put_null) = Normal JNull
  /\ (exists w',
        Plain.handler put_truncated w0
        = (Normal (response 500
                     (error_payload
                        ("Internal Server Error for Put :: "
                         +:+ "Unexpected end of JSON input"))), w')
        /\ untouched w0 w')
  /\ (exists w',
        Plain.handler put_null w0
        = (Normal (response 400
                     (error_payload
                        "Product ID in the body does not match path parameter")), w')
        /\ untouched w0 w').
Proof.
  assert (Hfail : JSON_parse (body_or_empty put_truncated)
                  = Throw (SyntaxError "Unexpected end of JSON input"))
    by (vm_compute; reflexivity).
  assert (Hnull : JSON_parse (body_or_empty put_null) = Normal JNull)
    by (vm_compute; reflexivity).
  split; [exact Hfail|]. split; [exact Hnull|]. split.
  - apply (proj1 (proj1 (@body_decode ref_JSON ref_store ref_uuid ref_env
                           put_truncated w0) _ Hfail)).
    reflexivity.
  - apply (proj1 (proj2 (proj2 (@body_decode ref_JSON ref_store ref_uuid ref_env
                                  put_null w0) _ Hnull eq_refl)));
      [reflexivity | discriminate].
Defined.

Lemma delete_absent_witness :
  httpMethod delete_p2 = "DELETE"
  /\ db_get (get_by (Some "p2")) (table w0) = Normal {| Item := None |}
  /\ exists w',
       Plain.handler delete_p2 w0
       = (Normal (response 404 (error_payload (deleted_message (Some "p2")))), w')
       /\ table w' = table w0
       /\ calls w' = (calls w0 ++ [CallGet (get_by (Some "p2"))])%list.
Proof.
  split; [reflexivity|]. split; [vm_compute; reflexivity|].
  apply (proj1 (delete_absent delete_p2 w0 eq_refl)). vm_compute. reflexivity.
Defined.

Lemma getById_ForceError_witness :
  httpMethod get_ForceError = "GET"
  /\ pathParameters_id get_ForceError = Some "ForceError"
  /\ exists w',
       Plain.handler get_ForceError unreachable
       = (Normal (response 500
                    (error_payload "Internal Server Error for GetById :: BOOM")), w')
       /\ untouched unreachable w'.
Proof.
  split; [reflexivity|]. split; [reflexivity|].
  apply (getById_ForceError get_ForceError unreachable [("id", "ForceError")]);
    reflexivity.
Defined.

Lemma listFirstPage_capped_witness :
  httpMethod get_all = "GET"
  /\ pathParameters get_all = None
  /\ length (@records _ ref_contract (table crowded)) = 21%nat
  /\ db_scan first_page (table crowded)
     = Normal {| Items := take 20 (@records _ ref_contract (table crowded)) |}
  /\ exists w',
       Plain.handler get_all crowded
       = (Normal (response 200
                    (JArray (map JObject
                               (take 20 (@records _ ref_contract (table crowded)))))),
          w')
       /\ (length (take 20 (@records _ ref_contract (table crowded))) <= 20)%nat
       /\ table w' = table crowded
       /\ calls w' = (calls crowded ++ [CallScan first_page])%list.
Proof.
  assert (Hscan : db_scan first_page (table crowded)
                  = Normal {| Items := take 20 (@records _ ref_contract (table crowded)) |})
    by reflexivity.
  split; [reflexivity|]. split; [reflexivity|]. split; [vm_compute; reflexivity|].
  split; [exact Hscan|].
  apply (@listFirstPage_capped ref_JSON ref_store ref_uuid ref_env ref_contract
           get_all crowded _ eq_refl eq_refl Hscan).
Defined.

(** C8 as the specification words it: the PUT of a product whose id is
    ["ForceError"] succeeds and the record is in the table, yet the GetById
    on that id that follows is answered 500, not 200. *)
Lemma upsert_then_getById_counterexample :
  let w1 := snd (Plain.handler put_ForceError w0) in
  fst (Plain.handler put_ForceError w0)
  = Normal (response 201
              (message_payload "Product with id = ForceError edited(created)"))
  /\ rows (table w1) !! "ForceError"
     = Some [("PK", JString "ForceError"); ("name", JString "Gadget");
             ("price", JUndefined)]
  /\ fst (Plain.handler get_ForceError w1)
     = Normal (response 500
                 (error_payload "Internal Server Error for GetById :: BOOM")).
Proof. repeat split; vm_compute; reflexivity. Qed.

Lemma upsert_then_getById_witness :
  JSON_parse (body_or_empty put_p2) = Normal gadget
  /\ db_put (upsert_of gadget) (table w0)
     = (Normal tt, table_of [("p1", product "p1" "Widget");
                             ("p2", put_Item (upsert_of gadget))])
  /\ exists w1 w2,
       Plain.handler put_p2 w0
       = (Normal (response 201
                    (message_payload
                       ("Product with id = " +:+ "p2" +:+ " edited(created)"))), w1)
       /\ table w1 = table_of [("p1", product "p1" "Widget");
                               ("p2", put_Item (upsert_of gadget))]
       /\ Plain.handler get_p2 w1
          = (Normal (response 200
                       (JObject [("PK", JString "p2");
                                 ("name", product_field gadget "name");
                                 ("price", product_field gadget "price")])), w2).
Proof.
  assert (Hparse : JSON_parse (body_or_empty put_p2) = Normal gadget)
    by (vm_compute; reflexivity).
  assert (Hput : db_put (upsert_of gadget) (table w0)
                 = (Normal tt, table_of [("p1", product "p1" "Widget");
                                         ("p2", put_Item (upsert_of gadget))]))
    by (vm_compute; reflexivity).
  split; [exact Hparse|]. split; [exact Hput|].
  apply (@upsert_then_getById ref_JSON ref_store ref_uuid ref_env ref_contract
           put_p2 get_p2 w0 gadget _ [("id", "p2")] eq_refl Hparse eq_refl Hput);
    [discriminate | reflexivity | reflexivity | reflexivity].
Defined.

Lemma faults_are_caught_witness :
  db_get (get_by (Some "p1")) (table unreachable) = Throw ServiceUnavailable
  /\ (exists w',
        Plain.processGetByIdEvent get_p1 unreachable
        = (Normal (fault_response "GetById" ServiceUnavailable), w'))
  /\ (exists r w', Plain.handler get_p1 unreachable = (Normal r, w')).
Proof.
  destruct (@faults_are_caught ref_JSON ref_store ref_uuid ref_env get_p1)
    as (Htotal & _ & _ & _ & Hget & _).
  split; [reflexivity|]. split; [|apply Htotal].
  destruct (Hget unreachable) as [_ Hcatch].
assert (Hthrow :
  Plain.getByIdEvent_try get_p1
    (snd (Plain.console_info "Processing Get By Id Event" unreachable))
  = (Throw ServiceUnavailable,
     {| table := table unreachable;
        entropy := entropy unreachable;
        calls := [CallGet (get_by (Some "p1"))];
        telemetry := [ConsoleInfo "Processing Get By Id Event"] |}))
  by reflexivity.
destruct (Hcatch _ _ Hthrow) as (w' & Hrun & _).
exists w'. exact Hrun.
Defined.

(** *** The reference [JSON] object *)

Example parse_put_p2 : parse (body_or_empty put_p2) = Normal gadget.
Proof. vm_compute. reflexivity. Qed.

Example parse_nothing :
  parse EmptyString = Throw (SyntaxError "Unexpected end of JSON input").
Proof. vm_compute. reflexivity. Qed.

Example parse_garbage :
  parse "not json" = Throw (SyntaxError "Unexpected token o in JSON at position 1").
Proof. vm_compute. reflexivity. Qed.

Example parse_falsy :
  map (fun text => match parse text with
                   | Normal v => Some (ToBoolean v)
                   | Throw _ => None
                   end)
      ["null"; "false"; "0"; "-0.0"; "1e-400"; json "''"; "{}"; "[]"; "5e-324"; "{"]
  = [Some false; Some false; Some false; Some false; Some false; Some false;
     Some true; Some true; Some true; None].
Proof. vm_compute. reflexivity. Qed.

Example numbers_round_trip :
  map (fun text => match parse text with
                   | Normal v => stringify v
                   | Throw e => message e
                   end)
      ["9.99"; "0.1"; "1e21"; "123456789012345680000"; "1e-7"; "0.000001";
       "9007199254740993"; "1.7976931348623157e308"; "-2.5e-10"; "01"]
  = ["9.99"; "0.1"; "1e+21"; "123456789012345680000"; "1e-7"; "0.000001";
     "9007199254740992"; "1.7976931348623157e+308"; "-2.5e-10";
     "Unexpected number in JSON at position 1"].
Proof. vm_compute. reflexivity. Qed.

Example object_keys :
  (match parse (json "{'b':1,'1':2,'a':3,'0':4,'b':5}") with
   | Normal v => stringify v
   | Throw e => message e
   end)
  = json "{'0':4,'1':2,'b':5,'a':3}".
Proof. vm_compute. reflexivity. Qed.

Example undefined_is_left_out :
  stringify (JObject (product "p1" "Widget")) = json "{'PK':'p1','name':'Widget'}"
  /\ stringify (JArray [JUndefined; JNull]) = "[null,null]".
Proof. split; vm_compute; reflexivity. Qed.

(** *** The store call behind each route *)

Example calls_by_route :
  map (fun event =>
         map (fun call => match call with
                          | CallGet _ => "get"
                          | CallPut _ => "put"
                          | CallDelete _ => "delete"
                          | CallScan _ => "scan"
                          end)
             (calls (snd (Plain.handler event w0))))
      [put_p2; post_null; get_all; get_p1; get_productId; delete_p1; delete_p2;
       patch_p1; put_mismatch; get_ForceError]
  = [["put"]; ["put"]; ["scan"]; ["get"]; ["get"]; ["get"; "delete"]; ["get"];
     []; []; []].
Proof. vm_compute. reflexivity. Qed.

(** *** The text of the responses *)

Example generic_failure_text :
  fst (Plain.handler patch_p1 w0)
  = Normal {| statusCode := 500;
              result_body := json "{'message':'some error happened'}";
              headers := Some [("Content-Type", "application/json");
                               ("X-Custom-Header", "application/json")] |}.
Proof. vm_compute. reflexivity. Qed.

Example id_mismatch_text :
  result_body (response 400
                 (error_payload "Product ID in the body does not match path parameter"))
  = json "{'error':'Product ID in the body does not match path parameter'}".
Proof. vm_compute. reflexivity. Qed.

Example delete_absent_text :
  fst (Plain.handler delete_p2 w0)
  = Normal {| statusCode := 404;
              result_body := json "{'error':'Product with id = p2 was deleted'}";
              headers := Some [("Content-Type", "application/json");
                               ("X-Custom-Header", "application/json")] |}.
Proof. vm_compute. reflexivity. Qed.

Example delete_present_text :
  fst (Plain.handler delete_p1 w0)
  = Normal {| statusCode := 200;
              result_body := json "{'message':'Product with id = p1 was deleted'}";
              headers := Some [("Content-Type", "application/json");
                               ("X-Custom-Header", "application/json")] |}
  /\ rows (table (snd (Plain.handler delete_p1 w0))) !! "p1" = None.
Proof. split; vm_compute; reflexivity. Qed.

Example ForceError_text :
  fst (Plain.handler get_ForceError w0)
  = Normal {| statusCode := 500;
              result_body :=
                json "{'error':'Internal Server Error for GetById :: BOOM'}";
              headers := Some [("Content-Type", "application/json");
                               ("X-Custom-Header", "application/json")] |}.
Proof. vm_compute. reflexivity. Qed.

Example upsert_then_getById_text :
  fst (Plain.handler get_p2 (snd (Plain.handler put_p2 w0)))
  = Normal {| statusCode := 200;
              result_body := json "{'PK':'p2','name':'Gadget','price':9.99}";
              headers := Some [("Content-Type", "application/json");
                               ("X-Custom-Header", "application/json")] |}.
Proof. vm_compute. reflexivity. Qed.

Example getById_absent_text :
  fst (Plain.handler get_p2 w0)
  = Normal {| statusCode := 404;
              result_body := json "{'error':'Product with id = p2 NOT found'}";
              headers := Some [("Content-Type", "application/json");
                               ("X-Custom-Header", "application/json")] |}.
Proof. vm_compute. reflexivity. Qed.

Example create_text :
  fst (Plain.handler post_null w0)
  = Normal {| statusCode := 201;
              result_body :=
                json ("{'message':'Product with id = "
                      +:+ "00000000-0000-4000-8000-0000000007e8 created'}");
              headers := Some [("Content-Type", "application/json");
                               ("X-Custom-Header", "application/json")] |}.
Proof. vm_compute. reflexivity. Qed.

Example first_page_of_crowded :
  match fst (Plain.handler get_all crowded) with
  | Normal r =>
      match parse (result_body r) with
      | Normal (JArray page) => (statusCode r, length page)
      | _ => (statusCode r, 0%nat)
      end
  | Throw _ => (0, 0%nat)
  end = (200, 20%nat).
Proof. vm_compute. reflexivity. Qed.

Example unreachable_store_text :
  fst (Plain.handler get_all unreachable)
  = Normal {| statusCode := 500;
              result_body :=
                json "{'error':'Internal Server Error for GetAll :: Service Unavailable'}";
              headers := Some [("Content-Type", "application/json");
                               ("X-Custom-Header", "application/json")] |}.
Proof. vm_compute. reflexivity. Qed.

Example instrumented_same_text :
  fst (Powertools.handler put_p2 w0) = fst (Plain.handler put_p2 w0)
  /\ fst (Powertools.handler get_all crowded) = fst (Plain.handler get_all crowded)
  /\ fst (Powertools.handler delete_p2 unreachable)
     = fst (Plain.handler delete_p2 unreachable).
Proof. repeat split; vm_compute; reflexivity. Qed.
End Runs.

(** ** More of the handlers' behaviour *)

Section MoreFacts.
Context `{JSONGlobal} `{DocumentClient} `{UuidGen} `{ProcessEnv}.
Import Contract Coverage.
Local Open Scope js_scope.

Ltac run_plain :=
  unfold dispatched, generic_failure,
    Plain.processPutEvent, Plain.putEvent_try,
    Plain.processPostEvent, Plain.postEvent_try,
    Plain.processGetAllEvent, Plain.getAllEvent_try,
    Plain.processGetByIdEvent, Plain.getByIdEvent_try,
    Plain.processDeleteEvent, Plain.deleteEvent_try,
    Plain.internal_error, Plain.addResponseHeaders,
    Plain.console_info, Plain.console_log, Plain.console_error,
    bind, ret, lift, throw, try_catch, emit,
    dbClient_get, dbClient_put, dbClient_delete, dbClient_scan, fresh_uuid,
    record_call, set_table.

(** Case analysis on everything a run branches on, innermost first. *)
Ltac step :=
  rewrite ?GetV_product;
  cbn -[GetV js_or strict_eq product_field js_of_id template_id template_items
        String.append].

Ltac explode :=
  repeat (step;
          match goal with
          | |- context [match ?x with _ => _ end] =>
              lazymatch x with
              | context [match _ with _ => _ end] => fail
              | _ => destruct x eqn:?
              end
          end);
  step.

(** The five ways through the dispatcher. *)
Ltac by_method event :=
  destruct (String.eqb_spec (httpMethod event) "PUT") as [Hput|Hput];
  [ rewrite (handler_PUT event Hput)
  | destruct (String.eqb_spec (httpMethod event) "POST") as [Hpost|Hpost];
    [ rewrite (handler_POST event Hpost)
    | destruct (String.eqb_spec (httpMethod event) "GET") as [Hget|Hget];
      [ destruct (pathParameters event) as [params|] eqn:Hparams;
        [ rewrite (handler_GET_one event params Hget Hparams)
        | rewrite (handler_GET_all event Hget Hparams) ]
      | destruct (String.eqb_spec (httpMethod event) "DELETE") as [Hdelete|Hdelete];
        [ rewrite (handler_DELETE event Hdelete)
        | rewrite (handler_other event Hput Hpost Hget Hdelete) ] ] ] ].

Ltac answered := eexists; eexists; (split; [reflexivity|]); cbn.

(** *** Every way through the dispatcher *)

Lemma status_by_method_plain (event : APIGatewayProxyEvent) (w : World) :
  exists r w',
    Plain.handler event w = (Normal r, w')
    /\ In (statusCode r) (statuses_of (httpMethod event)).
Proof.
  unfold statuses_of.
  by_method event; run_plain; explode; answered; tauto.
Qed.

(** X11.  The status of a response is one the method allows: 201, 400 or
    500 for PUT; 201 or 500 for POST; 200, 404 or 500 for GET and for
    DELETE; 500 for any other method. *)
Theorem status_by_method (event : APIGatewayProxyEvent) (w : World) :
  exists r w',
    Plain.handler event w = (Normal r, w')
    /\ In (statusCode r) (statuses_of (httpMethod event))
    /\ In (statusCode r) [200; 201; 400; 404; 500].
Proof.
  destruct (status_by_method_plain event w) as (r & w' & Hrun & Hstatus).
  exists r, w'. split; [exact Hrun|]. split; [exact Hstatus|].
  revert Hstatus. unfold statuses_of.
  repeat match goal with |- context [String.eqb ?a ?b] => destruct (String.eqb a b) end;
    cbn; tauto.
Qed.

(** X12.  A GET leaves the table and the entropy as they are, and issues at
    most one call to the store: the scan of the first page or the lookup of
    the path id. *)
Theorem get_is_read_only (event : APIGatewayProxyEvent) (w : World) :
  httpMethod event = "GET" ->
  exists r w',
    Plain.handler event w = (Normal r, w')
    /\ table w' = table w
    /\ entropy w' = entropy w
    /\ (calls w' = calls w
        \/ calls w' = (calls w ++ [CallScan first_page])%list
        \/ calls w' = (calls w ++ [CallGet (get_by (pathParameters_id event))])%list).
Proof.
  intros Hmethod.
  destruct (pathParameters event) as [params|] eqn:Hparams.
  - rewrite (handler_GET_one event params Hmethod Hparams).
    run_plain; explode; answered; tauto.
  - rewrite (handler_GET_all event Hmethod Hparams).
    run_plain; explode; answered; tauto.
Qed.

Ltac summed :=
  eexists; eexists; eexists; (split; [reflexivity|]); step;
  rewrite <- ?app_assoc;
  (split; [first [reflexivity | symmetry; apply app_nil_r]|]).

(** X13.  Whatever the event, the dispatcher only adds to the list of calls
    issued, at most two of them, each on the table named by
    [PRODUCT_TABLE_NAME]; it issues a delete only for the method DELETE and
    a put only for PUT and POST; and it draws on the entropy only for
    POST. *)
Theorem call_discipline (event : APIGatewayProxyEvent) (w : World) :
  exists r w' cs,
    Plain.handler event w = (Normal r, w')
    /\ calls w' = (calls w ++ cs)%list
    /\ (length cs <= 2)%nat
    /\ Forall (fun c => call_TableName c = Plain.dynamoDBTableName) cs
    /\ (existsb is_delete cs = true -> httpMethod event = "DELETE")
    /\ (existsb is_put cs = true ->
        httpMethod event = "PUT" \/ httpMethod event = "POST")
    /\ (entropy w' <> entropy w -> httpMethod event = "POST").
Proof.
  by_method event; run_plain; explode; summed;
    (split; [cbn; lia|]);
    (split; [repeat constructor|]);
    (split; [cbn; first [discriminate | intros _; assumption]|]);
    (split; [cbn; first [discriminate | intros _; tauto]|]);
    first [ intros _; assumption | intros Hne; exfalso; apply Hne; reflexivity ].
Qed.

(** X14.  The dispatcher only adds to the telemetry, and what it adds holds
    an error record exactly when the response has status 500. *)
Theorem errors_logged_iff_500 (event : APIGatewayProxyEvent) (w : World) :
  exists r w' logs,
    Plain.handler event w = (Normal r, w')
    /\ telemetry w' = (telemetry w ++ logs)%list
    /\ (existsb is_error_log logs = true <-> statusCode r = 500).
Proof.
  by_method event; run_plain; explode; summed;
    cbn; split; first [discriminate | reflexivity | intros _; reflexivity].
Qed.

(** *** Create *)

(** X1.  A POST whose body parses and whose store write succeeds is
    answered 201 with the message [Product with id = <uuid> created], where
    the id is the one [uuidv4] gives; the write is the only call issued, and
    its record is keyed by that id and carries the name and the price of the
    body, whatever id the body holds. *)
Theorem create_writes_record (event : APIGatewayProxyEvent) (w : World)
    (parsed : JSValue) (t' : Table) :
  let productId := fst (uuidv4 (entropy w)) in
  httpMethod event = "POST" ->
  JSON_parse (body_or_empty event) = Normal parsed ->
  db_put (create_of productId parsed) (table w) = (Normal tt, t') ->
  exists w',
    Plain.handler event w
    = (Normal (response 201
                 (message_payload ("Product with id = " +:+ productId +:+ " created"))),
       w')
    /\ table w' = t'
    /\ entropy w' = snd (uuidv4 (entropy w))
    /\ calls w' = (calls w ++ [CallPut (create_of productId parsed)])%list.
Proof.
  intros productId Hmethod Hparse Hput. subst productId.
  rewrite (handler_POST event Hmethod). run_plain. step. rewrite Hparse. step.
  destruct (uuidv4 (entropy w)) as [u g]. step.
  unfold create_of in Hput. cbn in Hput. rewrite Hput. step.
  eexists. repeat split.
Qed.

(** X2.  What a request writes and answers depends on its body through
    three fields only.  Two POSTs whose bodies agree on name and price, and
    two PUTs with the same path parameters whose bodies agree on id, name
    and price, get the same response and leave the same store, whatever
    else the bodies hold. *)
Theorem body_read_through_fields (e1 e2 : APIGatewayProxyEvent) (w : World)
    (parsed1 parsed2 : JSValue) :
  JSON_parse (body_or_empty e1) = Normal parsed1 ->
  JSON_parse (body_or_empty e2) = Normal parsed2 ->
  product_field parsed1 "name" = product_field parsed2 "name" ->
  product_field parsed1 "price" = product_field parsed2 "price" ->
  (httpMethod e1 = "POST" -> httpMethod e2 = "POST" ->
   fst (Plain.handler e1 w) = fst (Plain.handler e2 w)
   /\ same_store (snd (Plain.handler e1 w)) (snd (Plain.handler e2 w)))
  /\ (httpMethod e1 = "PUT" -> httpMethod e2 = "PUT" ->
      pathParameters e1 = pathParameters e2 ->
      product_field parsed1 "id" = product_field parsed2 "id" ->
      fst (Plain.handler e1 w) = fst (Plain.handler e2 w)
      /\ same_store (snd (Plain.handler e1 w)) (snd (Plain.handler e2 w))).
Proof.
  intros Hparse1 Hparse2 Hname Hprice. split.
  - intros Hm1 Hm2.
    rewrite (handler_POST e1 Hm1), (handler_POST e2 Hm2). run_plain. step.
    rewrite Hparse1, Hparse2. step. rewrite Hname, Hprice.
    explode; repeat split.
  - intros Hm1 Hm2 Hparams Hid.
    rewrite (handler_PUT e1 Hm1), (handler_PUT e2 Hm2). run_plain. step.
    unfold pathParameters_id. rewrite Hparse1, Hparse2, Hparams. step.
    rewrite Hname, Hprice, Hid.
    explode; repeat split.
Qed.

(** *** GetById *)

(** X4.  A GET with a path-parameter object whose id is not the sentinel
    looks the id up, once, and leaves the table as it is: a record found is
    answered 200 with that record as the body, no record is answered 404
    with the message [Product with id = <id> NOT found]. *)
Theorem getById_lookup (event : APIGatewayProxyEvent) (w : World)
    (params : list (string * string)) :
  let id := lookup_prop "id" params in
  httpMethod event = "GET" ->
  pathParameters event = Some params ->
  id <> Some "ForceError" ->
  (forall item,
      db_get (get_by id) (table w) = Normal {| Item := Some item |} ->
      exists w',
        Plain.handler event w = (Normal (response 200 (JObject item)), w')
        /\ table w' = table w
        /\ calls w' = (calls w ++ [CallGet (get_by id)])%list)
  /\ (db_get (get_by id) (table w) = Normal {| Item := None |} ->
      exists w',
        Plain.handler event w
        = (Normal (response 404
                     (error_payload
                        ("Product with id = " +:+ template_id id +:+ " NOT found"))),
           w')
        /\ table w' = table w
        /\ calls w' = (calls w ++ [CallGet (get_by id)])%list).
Proof.
  intros id Hmethod Hparams Hsentinel.
  assert (Hforce : strict_eq (js_of_id id) (JString "ForceError") = false).
  { destruct (strict_eq (js_of_id id) (JString "ForceError")) eqn:Hforce; [|reflexivity].
    apply ForceError_test in Hforce. contradiction. }
  rewrite (handler_GET_one event params Hmethod Hparams).
  unfold get_by. run_plain. unfold pathParameters_id. rewrite Hparams. fold id.
  step. rewrite Hforce. step.
  split; [intros item Hget | intros Hget]; rewrite Hget; step;
    eexists; repeat split.
Qed.

(** *** Delete *)

(** X6.  A DELETE looks its id up first and issues the delete only when the
    lookup found a record: either the lookup found one and the calls issued
    are the lookup and the delete, in this order, or it found none (or
    failed) and the lookup is the only call and the table is unchanged. *)
Theorem delete_guarded (event : APIGatewayProxyEvent) (w : World) :
  let id := pathParameters_id event in
  httpMethod event = "DELETE" ->
  exists r w',
    Plain.handler event w = (Normal r, w')
    /\ (((exists item, db_get (get_by id) (table w) = Normal {| Item := Some item |})
         /\ calls w' = (calls w ++ [CallGet (get_by id); CallDelete (delete_by id)])%list
         /\ table w' = snd (db_delete (delete_by id) (table w)))
        \/ ((forall item, db_get (get_by id) (table w) <> Normal {| Item := Some item |})
            /\ calls w' = (calls w ++ [CallGet (get_by id)])%list
            /\ table w' = table w)).
Proof.
  intros id Hmethod. rewrite (handler_DELETE event Hmethod).
  unfold get_by, delete_by. run_plain. fold id. step.
  destruct (db_get _ (table w)) as [[[item|]]|e] eqn:Hget; step.
  - destruct (db_delete _ (table w)) as [[[]|e] t'] eqn:Hdelete; step;
      eexists; eexists; (split; [reflexivity|]); left; step;
      rewrite <- app_assoc; repeat split; eauto.
  - eexists. eexists. split; [reflexivity|]. right. repeat split. discriminate.
  - eexists. eexists. split; [reflexivity|]. right. repeat split. discriminate.
Qed.

(** *** Upsert *)

(** X7.  A PUT that passes the id check writes one record, made of the id,
    the name and the price of the body and of nothing else, and is answered
    201 with the message [Product with id = <id> edited(created)].  The same
    PUT repeated issues the same write and gets the same response. *)
Theorem upsert_repeated (event : APIGatewayProxyEvent) (w : World)
    (parsed : JSValue) (t1 t2 : Table) :
  let id := pathParameters_id event in
  httpMethod event = "PUT" ->
  JSON_parse (body_or_empty event) = Normal parsed ->
  strict_eq (product_field parsed "id") (js_of_id id) = true ->
  db_put (upsert_of parsed) (table w) = (Normal tt, t1) ->
  db_put (upsert_of parsed) t1 = (Normal tt, t2) ->
  exists w1 w2,
    let r := response 201
               (message_payload
                  ("Product with id = " +:+ template_id id +:+ " edited(created)")) in
    Plain.handler event w = (Normal r, w1)
    /\ table w1 = t1
    /\ calls w1 = (calls w ++ [CallPut (upsert_of parsed)])%list
    /\ Plain.handler event w1 = (Normal r, w2)
    /\ table w2 = t2
    /\ calls w2 = (calls w ++ [CallPut (upsert_of parsed); CallPut (upsert_of parsed)])%list.
Proof.
  intros id Hmethod Hparse Hsame Hput1 Hput2.
  rewrite (handler_PUT event Hmethod). unfold upsert_of in *.
  run_plain. fold id. step. rewrite Hparse. step. rewrite Hsame. step.
  rewrite Hput1. step.
  eexists. eexists. split; [reflexivity|]. split; [reflexivity|].
  split; [reflexivity|]. step. rewrite Hput2. step.
  split; [reflexivity|]. split; [reflexivity|]. now rewrite <- app_assoc.
Qed.

(** X8.  A PUT whose body parses is answered 400 exactly when the id of the
    body is not the path id: the check passes only for a body id that is
    the very string of the path (or when body and path both lack an id),
    never for a number or any other value. *)
Theorem upsert_id_check (event : APIGatewayProxyEvent) (w : World)
    (parsed : JSValue) :
  httpMethod event = "PUT" ->
  JSON_parse (body_or_empty event) = Normal parsed ->
  exists r w',
    Plain.handler event w = (Normal r, w')
    /\ (statusCode r = 400
        <-> product_field parsed "id" <> js_of_id (pathParameters_id event)).
Proof.
  intros Hmethod Hparse.
  rewrite (handler_PUT event Hmethod). run_plain. step. rewrite Hparse. step.
  destruct (strict_eq (product_field parsed "id") (js_of_id (pathParameters_id event)))
    eqn:Hsame; step.
  - apply strict_eq_js_of_id in Hsame.
    destruct (db_put _ (table w)) as [[[]|e] t']; step;
      eexists; eexists; (split; [reflexivity|]); cbn;
      (split; [discriminate | intros Hne; contradiction]).
  - eexists. eexists. split; [reflexivity|]. cbn. split; [|reflexivity].
    intros _ Heq. rewrite Heq, strict_eq_id_refl in Hsame. discriminate.
Qed.

(** X9.  A PUT without a path id whose body has no id either passes the id
    check: it is not answered 400, and it issues a write whose key is
    [undefined]; when the store accepts the write the answer is 201 with the
    message [Product with id = undefined edited(created)]. *)
Theorem upsert_without_ids (event : APIGatewayProxyEvent) (w : World)
    (parsed : JSValue) :
  httpMethod event = "PUT" ->
  pathParameters_id event = None ->
  JSON_parse (body_or_empty event) = Normal parsed ->
  product_field parsed "id" = JUndefined ->
  exists r w',
    Plain.handler event w = (Normal r, w')
    /\ statusCode r <> 400
    /\ calls w'
       = (calls w
          ++ [CallPut {| put_TableName := Plain.dynamoDBTableName;
                         put_Item := [("PK", JUndefined);
                                      ("name", product_field parsed "name");
                                      ("price", product_field parsed "price")] |}])%list
    /\ (fst (db_put (upsert_of parsed) (table w)) = Normal tt ->
        r = response 201
              (message_payload "Product with id = undefined edited(created)")).
Proof.
  intros Hmethod Hid Hparse Hbody.
  rewrite (handler_PUT event Hmethod). unfold upsert_of. run_plain. step.
  rewrite Hparse, Hid. step. rewrite Hbody. cbn [strict_eq js_of_id negb]. step.
  destruct (db_put _ (table w)) as [[[]|e] t']; step;
    eexists; eexists; (split; [reflexivity|]); cbn;
    (split; [discriminate|]); (split; [reflexivity|]);
    first [ intros _; reflexivity | discriminate ].
Qed.

(** X10.  A body that parses to something other than an object (an array,
    a number, a string, a boolean, [null]) stands for a product without
    fields: a PUT with a path id is answered 400, and a POST writes a record
    that holds its generated key and neither a name nor a price. *)
Theorem non_object_body (event : APIGatewayProxyEvent) (w : World)
    (parsed : JSValue) :
  JSON_parse (body_or_empty event) = Normal parsed ->
  (forall props, parsed <> JObject props) ->
  (httpMethod event = "PUT" -> pathParameters_id event <> None ->
   exists w',
     Plain.handler event w
     = (Normal (response 400
                  (error_payload "Product ID in the body does not match path parameter")),
        w')
     /\ untouched w w')
  /\ (httpMethod event = "POST" ->
      exists r w',
        Plain.handler event w = (Normal r, w')
        /\ calls w'
           = (calls w
              ++ [CallPut
                    {| put_TableName := Plain.dynamoDBTableName;
                       put_Item := [("PK", JString (fst (uuidv4 (entropy w))));
                                    ("name", JUndefined);
                                    ("price", JUndefined)] |}])%list).
Proof.
  intros Hparse Hshape.
  assert (Hfield : forall key, product_field parsed key = JUndefined).
  { intros key. unfold product_field, js_or.
    destruct parsed; try reflexivity;
      try (destruct (ToBoolean _); reflexivity).
    exfalso. eapply Hshape. reflexivity. }
  split.
  - intros Hmethod Hid.
    rewrite (handler_PUT event Hmethod). run_plain. step. rewrite Hparse. step.
    rewrite Hfield.
    destruct (pathParameters_id event) as [id|]; [|contradiction]. step.
    eexists. split; [reflexivity | now repeat split].
  - intros Hmethod.
    rewrite (handler_POST event Hmethod). run_plain. step. rewrite Hparse. step.
    rewrite !Hfield.
    destruct (uuidv4 (entropy w)) as [u g]. step.
    destruct (db_put _ (table w)) as [[[]|e] t']; step;
      eexists; eexists; split; reflexivity.
Qed.

(** *** Operations in sequence, with a store that keeps its contract *)

Section Sequences.
Context {contract : StoreContract} {removal : DeleteContract}.

(** X3.  After a POST whose store write succeeds, a GetById on the
    generated id (which is not the sentinel) is answered 200 with the record
    the POST wrote: the generated key, and the name and price of the body. *)
Theorem create_then_getById (event probe : APIGatewayProxyEvent) (w : World)
    (parsed : JSValue) (t' : Table) (params : list (string * string)) :
  let productId := fst (uuidv4 (entropy w)) in
  httpMethod event = "POST" ->
  JSON_parse (body_or_empty event) = Normal parsed ->
  db_put (create_of productId parsed) (table w) = (Normal tt, t') ->
  productId <> "ForceError" ->
  httpMethod probe = "GET" ->
  pathParameters probe = Some params ->
  lookup_prop "id" params = Some productId ->
  exists w1 w2,
    Plain.handler event w
    = (Normal (response 201
                 (message_payload ("Product with id = " +:+ productId +:+ " created"))),
       w1)
    /\ Plain.handler probe w1
       = (Normal (response 200
                    (JObject [("PK", JString productId);
                              ("name", product_field parsed "name");
                              ("price", product_field parsed "price")])),
          w2).
Proof.
  intros productId Hmethod Hparse Hput Hsentinel Hprobe Hparams Hid.
  pose proof (get_after_put _ _ _ (JString productId) Hput eq_refl) as Hget.
  assert (Hforce : strict_eq (JString productId) (JString "ForceError") = false).
  { apply String.eqb_neq. exact Hsentinel. }
  subst productId.
  rewrite (handler_POST event Hmethod).
  rewrite (handler_GET_one probe params Hprobe Hparams).
  unfold create_of in *. cbn in Hget.
  run_plain. step. rewrite Hparse. step.
  destruct (uuidv4 (entropy w)) as [u g]. cbn [fst] in *. step.
  rewrite Hput. step.
  eexists. eexists. split; [reflexivity|].
  unfold pathParameters_id. rewrite Hparams, Hid. cbn [js_of_id]. rewrite Hforce. step.
  rewrite Hget. step. reflexivity.
Qed.

(** X5.  After a DELETE that found its record and whose delete succeeded,
    answered 200, a GetById on the same id (not the sentinel) is answered
    404 with the message [Product with id = <id> NOT found]. *)
Theorem delete_then_getById (event probe : APIGatewayProxyEvent) (w : World)
    (item : AttributeMap) (t' : Table) (params : list (string * string)) :
  let id := pathParameters_id event in
  httpMethod event = "DELETE" ->
  db_get (get_by id) (table w) = Normal {| Item := Some item |} ->
  db_delete (delete_by id) (table w) = (Normal tt, t') ->
  id <> Some "ForceError" ->
  httpMethod probe = "GET" ->
  pathParameters probe = Some params ->
  lookup_prop "id" params = id ->
  exists w1 w2,
    Plain.handler event w
    = (Normal (response 200 (message_payload (deleted_message id))), w1)
    /\ table w1 = t'
    /\ Plain.handler probe w1
       = (Normal (response 404
                    (error_payload
                       ("Product with id = " +:+ template_id id +:+ " NOT found"))),
          w2).
Proof.
  intros id Hmethod Hfound Hdelete Hsentinel Hprobe Hparams Hid.
  pose proof (get_after_delete _ _ _ Hdelete) as Hgone.
  assert (Hforce : strict_eq (js_of_id id) (JString "ForceError") = false).
  { destruct (strict_eq (js_of_id id) (JString "ForceError")) eqn:Hforce; [|reflexivity].
    apply ForceError_test in Hforce. contradiction. }
  rewrite (handler_DELETE event Hmethod).
  rewrite (handler_GET_one probe params Hprobe Hparams).
  unfold get_by, delete_by, deleted_message in *. cbn in Hgone.
  run_plain. fold id. step. rewrite Hfound. step. rewrite Hdelete. step.
  eexists. eexists. split; [reflexivity|]. split; [reflexivity|].
  unfold pathParameters_id. rewrite Hparams, Hid. rewrite Hforce. step.
  rewrite Hgone. step. reflexivity.
Qed.
End Sequences.

(** *** The instrumented handler *)

(** X17.  The instrumented dispatcher, too, returns a response for every
    event and every world, with the two fixed headers and a status its
    method allows. *)
Theorem instrumented_status_and_headers (event : APIGatewayProxyEvent) (w : World) :
  exists r w',
    Powertools.handler event w = (Normal r, w')
    /\ headers r = Some [("Content-Type", "application/json");
                         ("X-Custom-Header", "application/json")]
    /\ In (statusCode r) (statuses_of (httpMethod event)).
Proof.
  destruct (status_by_method_plain event w) as (r & w1 & Hplain & Hstatus).
  destruct (handler_total event w) as (r0 & w0 & Hfinal).
  destruct (agree_handler event w w (same_store_refl w)) as [Hfst _].
  rewrite Hplain in Hfinal. injection Hfinal as Hr _.
  destruct (Powertools.handler event w) as [c w2].
  rewrite Hplain in Hfst. cbn [fst] in Hfst.
  exists r, w2. split; [now rewrite <- Hfst|].
  split; [now rewrite Hr | exact Hstatus].
Qed.

Ltac run_powertools :=
  unfold Powertools.processGetAllEvent, Powertools.getAllEvent_try,
    Powertools.internal_error, Powertools.dbClient_scan, Powertools.traced,
    Powertools.logger_info, Powertools.logger_error, Powertools.metrics_addMetric,
    bind, ret, lift, throw, try_catch, emit, dbClient_scan, record_call.

(** X15.  The instrumented GetAll records the metric [getAllCount], in
    [Count], once, with the number of records of the page it returns, and no
    metric when the scan fails. *)
Theorem getAll_metric_counts_page (w : World) :
  (forall out,
      db_scan first_page (table w) = Normal out ->
      exists w' logs,
        Powertools.processGetAllEvent w
        = (Normal {| statusCode := 200;
                     result_body := JSON_stringify (JArray (map JObject (Items out)));
                     headers := None |},
           w')
        /\ telemetry w' = (telemetry w ++ logs)%list
        /\ List.filter is_metric logs
           = [MetricAdded "productsService" "getAllCount" "Count" (length (Items out))])
  /\ (forall e,
        db_scan first_page (table w) = Throw e ->
        exists w' logs,
          Powertools.processGetAllEvent w = (Normal (fault_response "GetAll" e), w')
          /\ telemetry w' = (telemetry w ++ logs)%list
          /\ List.filter is_metric logs = []).
Proof.
  unfold first_page, fault_response, error_payload.
  split; [intros out Hscan | intros e Hscan];
    run_powertools; step; unfold Powertools.dynamoDBTableName;
    unfold Plain.dynamoDBTableName in Hscan; rewrite Hscan; step;
    eexists; eexists; (split; [reflexivity|]); step; rewrite <- ?app_assoc;
    (split; [reflexivity|]); reflexivity.
Qed.
End MoreFacts.

(** ** The configuration of the observability utilities *)

Section Configuration.
Context `{ProcessEnv}.


End Configuration.

(** ** The further theorems at work on the reference instances *)

Lemma ref_get_after_delete (params : DeleteItemInput) (t t' : Ref.RefTable) :
  Ref.ref_delete params t = (Normal tt, t') ->
  Ref.ref_get {| get_TableName := delete_TableName params;
                 get_Key := delete_Key params |} t'
  = Normal {| Item := None |}.
Proof.
  unfold Ref.ref_delete, Ref.ref_get.
  destruct (negb (Ref.online t)) eqn:Honline; [discriminate|].
  cbn [get_Key]. destruct (Ref.primary_key (delete_Key params)) as [k|]; [|discriminate].
  intros [= <-]. cbn. rewrite Honline.
  now rewrite lookup_delete_eq.
Qed.

Lemma ref_delete_contract : @Coverage.DeleteContract Ref.ref_store.
Proof. constructor. exact ref_get_after_delete. Qed.

Section MoreRuns.
Import Ref Contract Coverage Scenario Trials.

Lemma create_writes_record_witness :
  httpMethod post_gadget = "POST"
  /\ JSON_parse (body_or_empty post_gadget) = Normal gadget
  /\ fst (uuidv4 (entropy w0)) = first_uuid
  /\ exists w',
       Plain.handler post_gadget w0
       = (Normal (response 201
                    (message_payload
                       ("Product with id = " +:+ fst (uuidv4 (entropy w0))
                        +:+ " created"))), w')
       /\ table w' = table_of [("p1", product "p1" "Widget");
                               (first_uuid,
                                put_Item (create_of first_uuid gadget))]
       /\ entropy w' = snd (uuidv4 (entropy w0))
       /\ calls w'
          = (calls w0 ++ [CallPut (create_of (fst (uuidv4 (entropy w0))) gadget)])%list.
Proof.
  assert (Hparse : JSON_parse (body_or_empty post_gadget) = Normal gadget)
    by (vm_compute; reflexivity).
  assert (Hput : db_put (create_of (fst (uuidv4 (entropy w0))) gadget) (table w0)
                 = (Normal tt,
                    table_of [("p1", product "p1" "Widget");
                              (first_uuid, put_Item (create_of first_uuid gadget))]))
    by (vm_compute; reflexivity).
  split; [reflexivity|]. split; [exact Hparse|]. split; [vm_compute; reflexivity|].
  apply (@create_writes_record ref_JSON ref_store ref_uuid ref_env
           post_gadget w0 gadget _ eq_refl Hparse Hput).
Defined.

Lemma body_read_through_fields_witness :
  JSON_parse (body_or_empty post_gadget) = Normal gadget
  /\ JSON_parse (body_or_empty post_red) = Normal red
  /\ product_field gadget "id" <> product_field red "id"
  /\ fst (Plain.handler post_gadget w0) = fst (Plain.handler post_red w0)
  /\ same_store (snd (Plain.handler post_gadget w0)) (snd (Plain.handler post_red w0)).
Proof.
  assert (Hparse1 : JSON_parse (body_or_empty post_gadget) = Normal gadget)
    by (vm_compute; reflexivity).
  assert (Hparse2 : JSON_parse (body_or_empty post_red) = Normal red)
    by (vm_compute; reflexivity).
  split; [exact Hparse1|]. split; [exact Hparse2|]. split; [discriminate|].
  apply (proj1 (@body_read_through_fields ref_JSON ref_store ref_uuid ref_env
                  post_gadget post_red w0 gadget red
                  Hparse1 Hparse2 eq_refl eq_refl));
    reflexivity.
Defined.

Lemma create_then_getById_witness :
  lookup_prop "id" [("id", first_uuid)] = Some (fst (uuidv4 (entropy w0)))
  /\ exists w1 w2,
       Plain.handler post_gadget w0
       = (Normal (response 201
                    (message_payload
                       ("Product with id = " +:+ fst (uuidv4 (entropy w0))
                        +:+ " created"))), w1)
       /\ Plain.handler get_first_uuid w1
          = (Normal (response 200
                       (JObject [("PK", JString (fst (uuidv4 (entropy w0))));
                                 ("name", product_field gadget "name");
                                 ("price", product_field gadget "price")])), w2).
Proof.
  assert (Hparse : JSON_parse (body_or_empty post_gadget) = Normal gadget)
    by (vm_compute; reflexivity).
  assert (Hput : db_put (create_of (fst (uuidv4 (entropy w0))) gadget) (table w0)
                 = (Normal tt,
                    table_of [("p1", product "p1" "Widget");
                              (first_uuid, put_Item (create_of first_uuid gadget))]))
    by (vm_compute; reflexivity).
  assert (Hid : lookup_prop "id" [("id", first_uuid)]
                = Some (fst (uuidv4 (entropy w0))))
    by (vm_compute; reflexivity).
  assert (Hsentinel : fst (uuidv4 (entropy w0)) <> "ForceError")
    by (vm_compute; discriminate).
  split; [exact Hid|].
  apply (@create_then_getById ref_JSON ref_store ref_uuid ref_env ref_contract
           post_gadget get_first_uuid w0 gadget _ [("id", first_uuid)]
           eq_refl Hparse Hput Hsentinel eq_refl eq_refl Hid).
Defined.

Lemma getById_lookup_witness :
  (exists w',
      Plain.handler get_p1 w0 = (Normal (response 200 (JObject (product "p1" "Widget"))), w')
      /\ table w' = table w0
      /\ calls w' = (calls w0 ++ [CallGet (get_by (Some "p1"))])%list)
  /\ (exists w',
        Plain.handler get_p2 w0
        = (Normal (response 404
                     (error_payload
                        ("Product with id = " +:+ template_id (Some "p2")
                         +:+ " NOT found"))), w')
        /\ table w' = table w0
        /\ calls w' = (calls w0 ++ [CallGet (get_by (Some "p2"))])%list).
Proof.
  split.
  - apply (proj1 (@getById_lookup ref_JSON ref_store ref_uuid ref_env
                    get_p1 w0 [("id", "p1")] eq_refl eq_refl ltac:(discriminate))).
    vm_compute. reflexivity.
  - apply (proj2 (@getById_lookup ref_JSON ref_store ref_uuid ref_env
                    get_p2 w0 [("id", "p2")] eq_refl eq_refl ltac:(discriminate))).
    vm_compute. reflexivity.
Defined.

Lemma delete_then_getById_witness :
  db_get (get_by (Some "p1")) (table w0) = Normal {| Item := Some (product "p1" "Widget") |}
  /\ db_delete (delete_by (Some "p1")) (table w0) = (Normal tt, table_of [])
  /\ exists w1 w2,
       Plain.handler delete_p1 w0
       = (Normal (response 200 (message_payload (deleted_message (Some "p1")))), w1)
       /\ table w1 = table_of []
       /\ Plain.handler get_p1 w1
          = (Normal (response 404
                       (error_payload
                          ("Product with id = " +:+ template_id (Some "p1")
                           +:+ " NOT found"))), w2).
Proof.
  assert (Hget : db_get (get_by (Some "p1")) (table w0)
                 = Normal {| Item := Some (product "p1" "Widget") |})
    by (vm_compute; reflexivity).
  assert (Hdelete : db_delete (delete_by (Some "p1")) (table w0)
                    = (Normal tt, table_of []))
    by (vm_compute; reflexivity).
  split; [exact Hget|]. split; [exact Hdelete|].
  apply (@delete_then_getById ref_JSON ref_store ref_uuid ref_env ref_delete_contract
           delete_p1 get_p1 w0 _ _ [("id", "p1")]
           eq_refl Hget Hdelete ltac:(discriminate) eq_refl eq_refl eq_refl).
Defined.

Lemma delete_guarded_witness :
  exists r w',
    Plain.handler delete_p2 w0 = (Normal r, w')
    /\ (((exists item,
            db_get (get_by (Some "p2")) (table w0) = Normal {| Item := Some item |})
         /\ calls w'
            = (calls w0 ++ [CallGet (get_by (Some "p2"));
                            CallDelete (delete_by (Some "p2"))])%list
         /\ table w' = snd (db_delete (delete_by (Some "p2")) (table w0)))
        \/ ((forall item,
               db_get (get_by (Some "p2")) (table w0) <> Normal {| Item := Some item |})
            /\ calls w' = (calls w0 ++ [CallGet (get_by (Some "p2"))])%list
            /\ table w' = table w0)).
Proof.
  apply (@delete_guarded ref_JSON ref_store ref_uuid ref_env delete_p2 w0 eq_refl).
Defined.

Lemma upsert_repeated_witness :
  JSON_parse (body_or_empty put_p2) = Normal gadget
  /\ db_put (upsert_of gadget) (table w0) = (Normal tt, shelf_p2)
  /\ db_put (upsert_of gadget) shelf_p2 = (Normal tt, shelf_p2)
  /\ exists w1 w2,
       let r := response 201
                  (message_payload
                     ("Product with id = " +:+ template_id (Some "p2")
                      +:+ " edited(created)")) in
       Plain.handler put_p2 w0 = (Normal r, w1)
       /\ table w1 = shelf_p2
       /\ calls w1 = (calls w0 ++ [CallPut (upsert_of gadget)])%list
       /\ Plain.handler put_p2 w1 = (Normal r, w2)
       /\ table w2 = shelf_p2
       /\ calls w2
          = (calls w0 ++ [CallPut (upsert_of gadget); CallPut (upsert_of gadget)])%list.
Proof.
  assert (Hparse : JSON_parse (body_or_empty put_p2) = Normal gadget)
    by (vm_compute; reflexivity).
  assert (Hput1 : db_put (upsert_of gadget) (table w0) = (Normal tt, shelf_p2))
    by (vm_compute; reflexivity).
  assert (Hput2 : db_put (upsert_of gadget) shelf_p2 = (Normal tt, shelf_p2))
    by (vm_compute; reflexivity).
  split; [exact Hparse|]. split; [exact Hput1|]. split; [exact Hput2|].
  apply (@upsert_repeated ref_JSON ref_store ref_uuid ref_env
           put_p2 w0 gadget shelf_p2 shelf_p2 eq_refl Hparse eq_refl Hput1 Hput2).
Defined.

Lemma upsert_id_check_witness :
  JSON_parse (body_or_empty put_numeric) = Normal numeric
  /\ product_field numeric "id" <> js_of_id (pathParameters_id put_numeric)
  /\ exists r w',
       Plain.handler put_numeric w0 = (Normal r, w')
       /\ (statusCode r = 400
           <-> product_field numeric "id" <> js_of_id (pathParameters_id put_numeric)).
Proof.
  assert (Hparse : JSON_parse (body_or_empty put_numeric) = Normal numeric)
    by (vm_compute; reflexivity).
  split; [exact Hparse|]. split; [discriminate|].
  apply (@upsert_id_check ref_JSON ref_store ref_uuid ref_env
           put_numeric w0 numeric eq_refl Hparse).
Defined.

Lemma upsert_without_ids_witness :
  pathParameters_id put_anonymous = None
  /\ JSON_parse (body_or_empty put_anonymous) = Normal anonymous
  /\ product_field anonymous "id" = JUndefined
  /\ exists r w',
       Plain.handler put_anonymous w0 = (Normal r, w')
       /\ statusCode r <> 400
       /\ calls w'
          = (calls w0
             ++ [CallPut {| put_TableName := Plain.dynamoDBTableName;
                            put_Item := [("PK", JUndefined);
                                         ("name", product_field anonymous "name");
                                         ("price", product_field anonymous "price")] |}])%list
       /\ (fst (db_put (upsert_of anonymous) (table w0)) = Normal tt ->
           r = response 201
                 (message_payload "Product with id = undefined edited(created)")).
Proof.
  assert (Hparse : JSON_parse (body_or_empty put_anonymous) = Normal anonymous)
    by (vm_compute; reflexivity).
  split; [reflexivity|]. split; [exact Hparse|]. split; [reflexivity|].
  apply (@upsert_without_ids ref_JSON ref_store ref_uuid ref_env
           put_anonymous w0 anonymous eq_refl eq_refl Hparse eq_refl).
Defined.

Lemma non_object_body_witness :
  JSON_parse (body_or_empty post_array) = Normal one_two
  /\ (forall props, one_two <> JObject props)
  /\ exists r w',
       Plain.handler post_array w0 = (Normal r, w')
       /\ calls w'
          = (calls w0
             ++ [CallPut
                   {| put_TableName := Plain.dynamoDBTableName;
                      put_Item := [("PK", JString (fst (uuidv4 (entropy w0))));
                                   ("name", JUndefined);
                                   ("price", JUndefined)] |}])%list.
Proof.
  assert (Hparse : JSON_parse (body_or_empty post_array) = Normal one_two)
    by (vm_compute; reflexivity).
  assert (Hshape : forall props, one_two <> JObject props) by (intros props; discriminate).
  split; [exact Hparse|]. split; [exact Hshape|].
  apply (proj2 (@non_object_body ref_JSON ref_store ref_uuid ref_env
                  post_array w0 one_two Hparse Hshape)).
  reflexivity.
Defined.

Lemma get_is_read_only_witness :
  exists r w',
    Plain.handler get_p1 w0 = (Normal r, w')
    /\ table w' = table w0
    /\ entropy w' = entropy w0
    /\ (calls w' = calls w0
        \/ calls w' = (calls w0 ++ [CallScan first_page])%list
        \/ calls w' = (calls w0 ++ [CallGet (get_by (pathParameters_id get_p1))])%list).
Proof.
  apply (@get_is_read_only ref_JSON ref_store ref_uuid ref_env get_p1 w0 eq_refl).
Defined.

Lemma getAll_metric_counts_page_witness :
  length (ref_records (table crowded)) = 21%nat
  /\ exists w' logs,
       Powertools.processGetAllEvent crowded
       = (Normal {| statusCode := 200;
                    result_body :=
                      JSON_stringify
                        (JArray (map JObject (take 20 (ref_records (table crowded)))));
                    headers := None |},
          w')
       /\ telemetry w' = (telemetry crowded ++ logs)%list
       /\ List.filter is_metric logs
          = [MetricAdded "productsService" "getAllCount" "Count"
               (length (take 20 (ref_records (table crowded))))].
Proof.
  split; [vm_compute; reflexivity|].
  apply (proj1 (@getAll_metric_counts_page ref_JSON ref_store ref_uuid ref_env crowded)
           {| Items := take 20 (ref_records (table crowded)) |}).
  reflexivity.
Defined.

(** *** What the further runs give *)

Example numeric_id_is_a_mismatch :
  fst (Plain.handler put_numeric w0)
  = Normal {| statusCode := 400;
              result_body :=
                json "{'error':'Product ID in the body does not match path parameter'}";
              headers := Some [("Content-Type", "application/json");
                               ("X-Custom-Header", "application/json")] |}.
Proof. vm_compute. reflexivity. Qed.

Example anonymous_put_reaches_the_store :
  fst (Plain.handler put_anonymous w0)
  = Normal {| statusCode := 500;
              result_body :=
                json ("{'error':'Internal Server Error for Put :: One or more parameter "
                      +:+ "values were invalid: Missing the key PK in the item'}");
              headers := Some [("Content-Type", "application/json");
                               ("X-Custom-Header", "application/json")] |}.
Proof. vm_compute. reflexivity. Qed.

Example array_body_creates_a_bare_product :
  statusCode <$> (match fst (Plain.handler post_array w0) with
                  | Normal r => Some r
                  | Throw _ => None
                  end) = Some 201
  /\ rows (table (snd (Plain.handler post_array w0))) !! first_uuid
     = Some [("PK", JString first_uuid); ("name", JUndefined); ("price", JUndefined)].
Proof. split; vm_compute; reflexivity. Qed.

Example metric_of_the_crowded_table :
  List.filter is_metric (telemetry (snd (Powertools.handler get_all crowded)))
  = [MetricAdded "productsService" "getAllCount" "Count" 20].
Proof. vm_compute. reflexivity. Qed.
End MoreRuns.
